(** * quick_EDA: outlier detection and handling

    A shallow embedding of the outlier pipeline of [quick_EDA.py]
    ([five_point_summary], [outliers_z_score], [outliers_IQR],
    [handle_outliers]) together with the part of numpy/pandas it calls.

    Numeric cells are IEEE binary64 values (Rocq's primitive floats), so
    that NaN, infinities, signed zeros and rounding behave as they do in
    the program.  A dataframe is a row index (labels) and a list of named
    columns; in-place mutation is explicit state passing; raised
    exceptions are results; printing is a list of events. *)

From Stdlib Require Import Floats ZArith List String Ascii Bool Lia.
Import ListNotations.

Local Open Scope list_scope.

(** ** Strings: [str.strip] and [str.upper] *)

Module Str.

Local Open Scope nat_scope.

(** Whitespace removed by [str.strip()] among the code points 0..255. *)
Definition is_space (c : ascii) : bool :=
  let n := nat_of_ascii c in
  ((9 <=? n) && (n <=? 13)) || ((28 <=? n) && (n <=? 32))
  || (n =? 133) || (n =? 160).

Fixpoint lstrip (s : string) : string :=
  match s with
  | EmptyString => EmptyString
  | String c s' => if is_space c then lstrip s' else s
  end.

Fixpoint rev_append (s acc : string) : string :=
  match s with
  | EmptyString => acc
  | String c s' => rev_append s' (String c acc)
  end.

Definition rev (s : string) : string := rev_append s EmptyString.

Definition strip (s : string) : string := rev (lstrip (rev (lstrip s))).

(** [str.upper()] on the letters a..z.  The method tokens are compared
    with the literals 'Z' and 'IQR'; no other code point below 256
    upper-cases to one of the letters I, Q, R, Z. *)
Definition upper_char (c : ascii) : ascii :=
  let n := nat_of_ascii c in
  if (97 <=? n) && (n <=? 122) then ascii_of_nat (n - 32) else c.

Fixpoint upper (s : string) : string :=
  match s with
  | EmptyString => EmptyString
  | String c s' => String (upper_char c) (upper s')
  end.

End Str.

(** ** Numeric routines of numpy / pandas used by the module *)

Module Num.

Local Open Scope float_scope.

(** Sum of a float64 array, accumulated from left to right starting at
    0.  This is the order of numpy's summation below eight elements; on
    longer arrays numpy adds in blocks, which can change the last bits of
    a sum that is not exact.  No statement below depends on the order. *)
Definition fsum (l : list float) : float := fold_left PrimFloat.add l 0.

(** A non-negative count as a float64. *)
Definition of_nat (n : nat) : float :=
  PrimFloat.of_uint63 (Uint63.of_Z (Z.of_nat n)).

(** pandas reductions skip missing values (skipna=True). *)
Definition dropna (l : list float) : list float :=
  filter (fun x => negb (PrimFloat.is_nan x)) l.

(** [nanops.nanmean]: sum of the present values over their count. *)
Definition nanmean (xs : list float) : float :=
  let ys := dropna xs in
  match ys with
  | [] => nan
  | _ => fsum ys / of_nat (List.length ys)
  end.

(** [nanops.nanstd] with [ddof] delta degrees of freedom: two passes,
    the squared deviations from the average summed and divided by
    [count - ddof]. *)
Definition nanstd (ddof : nat) (xs : list float) : float :=
  let ys := dropna xs in
  let count := List.length ys in
  if Nat.leb count ddof then nan
  else
    let avg := fsum ys / of_nat count in
    let sqr := map (fun v => (avg - v) * (avg - v)) ys in
    sqrt (fsum sqr / of_nat (count - ddof)).

(** [np.mean(series)] and [np.std(series)] dispatch to the Series
    methods; [np.std] passes its own default [ddof=0] (population
    standard deviation). *)
Definition np_mean (feature : list float) : float := nanmean feature.
Definition np_std (feature : list float) : float := nanstd 0 feature.

(** Ascending sort of the present values. *)
Fixpoint insert (x : float) (l : list float) : list float :=
  match l with
  | [] => [x]
  | y :: l' => if x <=? y then x :: l else y :: insert x l'
  end.

Definition sort (l : list float) : list float := fold_right insert [] l.

(** Linear interpolation between [a] and [b] as [np.percentile] does
    it. *)
Definition lerp (a b t : float) : float :=
  if 0.5 <=? t then b - (b - a) * (1 - t) else a + (b - a) * t.

(** [Series.quantile(num/den)], linear interpolation between closest
    ranks: the virtual index is [(n - 1) * num / den]. *)
Definition quantile (num den : nat) (xs : list float) : float :=
  let ys := sort (dropna xs) in
  match ys with
  | [] => nan
  | _ =>
      let n := List.length ys in
      let pos := ((n - 1) * num)%nat in
      let lo := Nat.div pos den in
      let hi := Nat.min (lo + 1) (n - 1) in
      let gamma := of_nat (Nat.modulo pos den) / of_nat den in
      lerp (nth lo ys nan) (nth hi ys nan) gamma
  end.

Definition fmin (xs : list float) : float := hd nan (sort (dropna xs)).
Definition fmax (xs : list float) : float := last (sort (dropna xs)) nan.

(** [Series.describe()] of a numeric column: count, mean, std (sample,
    ddof=1), min, 25%, 50%, 75%, max, in this order. *)
Definition describe (xs : list float) : list (string * float) :=
  [ ("count"%string, of_nat (List.length (dropna xs)));
    ("mean"%string, nanmean xs);
    ("std"%string, nanstd 1 xs);
    ("min"%string, fmin xs);
    ("25%"%string, quantile 1 4 xs);
    ("50%"%string, quantile 1 2 xs);
    ("75%"%string, quantile 3 4 xs);
    ("max"%string, fmax xs) ].

End Num.

(** ** Dataframes *)

Local Open Scope string_scope.
Local Open Scope list_scope.

(** A column is numeric (float64) or of object dtype (text). *)
Inductive column : Type :=
| NumCol (values : list float)
| ObjCol (values : list string).

(** Rows carry labels; every column has one cell per label. *)
Record DataFrame : Type := mkDF {
  index : list Z;
  columns : list (string * column)
}.

(** A numeric column taken out of a frame keeps the frame's labels. *)
Record Series : Type := mkSeries {
  s_index : list Z;
  s_values : list float
}.

Definition col_length (c : column) : nat :=
  match c with
  | NumCol vs => List.length vs
  | ObjCol vs => List.length vs
  end.

Fixpoint lookup (name : string) (cols : list (string * column)) : option column :=
  match cols with
  | [] => None
  | (n, c) :: cols' => if n =? name then Some c else lookup name cols'
  end.

(** [df[column]] *)
Definition get_col (df : DataFrame) (name : string) : option column :=
  lookup name (columns df).

(** [df.columns] *)
Definition column_names (df : DataFrame) : list string :=
  map fst (columns df).

(** Selection by a boolean mask, [s[mask]]. *)
Fixpoint select {A : Type} (mask : list bool) (l : list A) : list A :=
  match mask, l with
  | b :: mask', x :: l' => if b then x :: select mask' l' else select mask' l'
  | _, _ => []
  end.

Definition select_col (mask : list bool) (c : column) : column :=
  match c with
  | NumCol vs => NumCol (select mask vs)
  | ObjCol vs => ObjCol (select mask vs)
  end.

Definition mem_label (l : Z) (labels : list Z) : bool :=
  existsb (Z.eqb l) labels.

(** The rows kept by [df.drop(index=labels)]: every row whose label is
    not listed. *)
Definition keep_mask (labels : list Z) (idx : list Z) : list bool :=
  map (fun l => negb (mem_label l labels)) idx.

Definition drop_rows (df : DataFrame) (labels : list Z) : DataFrame :=
  let keep := keep_mask labels (index df) in
  mkDF (select keep (index df))
       (map (fun nc => (fst nc, select_col keep (snd nc))) (columns df)).

(** Replacing the cells of the column called [name]. *)
Definition set_col (df : DataFrame) (name : string) (vs : list float) : DataFrame :=
  mkDF (index df)
       (map (fun nc => if fst nc =? name then (fst nc, NumCol vs) else nc)
            (columns df)).

(** Frames as the caller is meant to build them: one label per row,
    one name per column, every column as long as the index. *)
Definition well_formed (df : DataFrame) : Prop :=
  NoDup (index df) /\ NoDup (column_names df) /\
  Forall (fun nc => col_length (snd nc) = List.length (index df)) (columns df).

(** ** Results, exceptions and printed output *)

Inductive exn : Type :=
| KeyError (key : string)          (* df[column] on an absent column *)
| KeyErrorLabels                   (* drop of a label not in the index *)
| TypeError                        (* arithmetic on text, unpacking None *)
| IndexError                       (* positional indexer out of bounds *)
| UnboundLocalError (var : string).

Inductive result (A : Type) : Type :=
| Ok (a : A)
| Raise (e : exn).
Arguments Ok {A} a.
Arguments Raise {A} e.

(** What the detectors hand back as the outlier records: a two-column
    frame for the Z score, a series for the IQR. *)
Inductive outliers : Type :=
| ZFrame (idx : list Z) (values : list float) (zscores : list float)
| IQRSeries (s : Series).

(** [outliers.index] *)
Definition outliers_index (o : outliers) : list Z :=
  match o with
  | ZFrame idx _ _ => idx
  | IQRSeries s => s_index s
  end.

(** [outliers.shape[0]] *)
Definition outliers_count (o : outliers) : nat :=
  List.length (outliers_index o).

(** (upper, lower, outliers), in the order of the return statement. *)
Definition triple : Type := (float * float * outliers)%type.

Inductive summary : Type :=
| NumSummary (rows : list (string * float))   (* min, 25%, 50%, 75%, max *)
| ObjSummary (freq : option nat).             (* the freq row *)

Inductive event : Type :=
| PrintSummaryTitle (column : string)
| PrintSummary (s : summary)
| PrintRule
| PrintTitle (column : string) (method : string)
| PrintLimits (lower upper : float)
| PrintBlank
| PrintTotal (n : nat)
| PrintOutliers (o : outliers)
| PrintRemoved (o : outliers)
| PrintCompressed (column : string) (o : outliers)
| PrintSeparator.

(** Printing and raising: the text printed so far and the result. *)
Definition W (A : Type) : Type := (list event * result A)%type.

Definition wret {A : Type} (a : A) : W A := ([], Ok a).
Definition wraise {A : Type} (e : exn) : W A := ([], Raise e).
Definition print (e : event) : W unit := ([e], Ok tt).
Definition wbind {A B : Type} (m : W A) (k : A -> W B) : W B :=
  match m with
  | (o, Ok a) => let (o', r) := k a in (o ++ o', r)
  | (o, Raise e) => (o, Raise e)
  end.

Notation "x <- m ;; k" := (wbind m (fun x => k))
  (at level 61, m at next level, right associativity).
Notation "m ;;; k" := (wbind m (fun _ => k))
  (at level 61, right associativity).

(** ** The column selector *)

Inductive selector : Type :=
| Name (s : string)             (* a single str *)
| Names (l : list string).      (* a list of column names *)

Definition all_the_columns : string := "all_the_columns".

(** The prologue shared by [five_point_summary], [outliers_z_score] and
    [outliers_IQR]: a str is the sentinel for every column, or else one
    name. *)
Definition normalize (df : DataFrame) (columns : selector) : list string :=
  match columns with
  | Name s => if s =? all_the_columns then column_names df else [s]
  | Names l => l
  end.

(** ** five_point_summary *)

(** [describe()] of an object column has the rows count, unique, top,
    freq; [freq] is the number of occurrences of the most frequent
    value (absent for an empty column). *)
Definition top_freq (vs : list string) : option nat :=
  match vs with
  | [] => None
  | _ => Some (fold_right Nat.max 0%nat
                 (map (fun v => count_occ string_dec vs v) vs))
  end.

(** [df[[column]].describe().iloc[3:]] *)
Definition five_points (c : column) : summary :=
  match c with
  | NumCol vs => NumSummary (skipn 3 (Num.describe vs))
  | ObjCol vs => ObjSummary (top_freq vs)
  end.

Fixpoint five_point_loop (df : DataFrame) (cols : list string) : W unit :=
  match cols with
  | [] => wret tt
  | column :: rest =>
      print (PrintSummaryTitle column) ;;;
      s <- match get_col df column with
           | None => wraise (KeyError column)
           | Some c => wret (five_points c)
           end ;;
      print (PrintSummary s) ;;;
      print PrintRule ;;;
      five_point_loop df rest
  end.

Definition five_point_summary (df : DataFrame) (columns : selector) : W unit :=
  five_point_loop df (normalize df columns).

(** ** outliers_z_score *)

Local Open Scope float_scope.

Definition z_scores (mean stdev : float) (feature : list float) : list float :=
  map (fun v => (v - mean) / stdev) feature.

(** mask = abs(Z) > 3 *)
Definition z_mask (Z : list float) : list bool :=
  map (fun z => 3 <? abs z) Z.

(** The CALCULATIONS block of one loop iteration. *)
Definition z_score_calc (df : DataFrame) (column : string) : W triple :=
  match get_col df column with
  | None => wraise (KeyError column)
  | Some (ObjCol _) => wraise TypeError
  | Some (NumCol feature) =>
      let mean := Num.np_mean feature in
      let stdev := Num.np_std feature in
      let lower := -3 * stdev + mean in
      let upper := 3 * stdev + mean in
      let Z := z_scores mean stdev feature in
      let mask := z_mask Z in
      let outliers_with_z :=
        ZFrame (select mask (index df)) (select mask feature) (select mask Z) in
      wret (upper, lower, outliers_with_z)
  end.

Definition print_report (column method : string) (t : triple) : W unit :=
  let '(upper, lower, o) := t in
  print (PrintTitle column method) ;;;
  print (PrintLimits lower upper) ;;;
  print PrintBlank ;;;
  print (PrintTotal (outliers_count o)) ;;;
  (if Nat.eqb (outliers_count o) 0 then wret tt else print (PrintOutliers o)) ;;;
  print PrintRule.

Fixpoint z_score_loop (df : DataFrame) (mode : string) (cols : list string)
  : W (option triple) :=
  match cols with
  | [] => wret None
  | column :: rest =>
      t <- z_score_calc df column ;;
      if String.eqb mode "return" then wret (Some t)
      else print_report column "Z score" t ;;; z_score_loop df mode rest
  end.

Definition outliers_z_score (df : DataFrame) (columns : selector) (mode : string)
  : W (option triple) :=
  z_score_loop df mode (normalize df columns).

(** ** outliers_IQR *)

(** mask = (feature < lower) | (feature > upper) *)
Definition iqr_mask (lower upper : float) (feature : list float) : list bool :=
  map (fun v => (v <? lower) || (upper <? v)) feature.

(** [a, b = s.iloc[[i, j]]] on the rows of a description. *)
Definition iloc2 (rows : list (string * float)) (i j : nat) : W (float * float) :=
  match nth_error rows i, nth_error rows j with
  | Some a, Some b => wret (snd a, snd b)
  | _, _ => wraise IndexError
  end.

(** The CALCULATIONS block of one loop iteration.  The description of
    an object column has four rows only, so positions 4 and 6 are out of
    bounds there.  The assignment to the [columns] attribute of the
    selected series changes neither the series nor the frame. *)
Definition iqr_calc (df : DataFrame) (column : string) : W triple :=
  match get_col df column with
  | None => wraise (KeyError column)
  | Some (ObjCol _) => wraise IndexError
  | Some (NumCol feature) =>
      q <- iloc2 (Num.describe feature) 4 6 ;;
      let (q1, q3) := q in
      let iqr := q3 - q1 in
      let upper := q3 + 1.5 * iqr in
      let lower := q1 - 1.5 * iqr in
      let mask := iqr_mask lower upper feature in
      let outliers_with_IQR :=
        IQRSeries (mkSeries (select mask (index df)) (select mask feature)) in
      wret (upper, lower, outliers_with_IQR)
  end.

Fixpoint iqr_loop (df : DataFrame) (mode : string) (cols : list string)
  : W (option triple) :=
  match cols with
  | [] => wret None
  | column :: rest =>
      t <- iqr_calc df column ;;
      if String.eqb mode "return" then wret (Some t)
      else print_report column "IQR" t ;;; iqr_loop df mode rest
  end.

Definition outliers_IQR (df : DataFrame) (columns : selector) (mode : string)
  : W (option triple) :=
  iqr_loop df mode (normalize df columns).

(** ** handle_outliers *)

(** The state of a call: the frame (mutated in place), the local
    variables [upper], [lower], [outliers] (bound together, or not yet),
    and the text printed so far. *)
Record hstate : Type := mkH {
  h_df : DataFrame;
  h_locals : option triple;
  h_out : list event
}.

Definition step : Type := hstate -> hstate * result unit.

Definition skip : step := fun s => (s, Ok tt).

Definition seq (a b : step) : step :=
  fun s =>
    match a s with
    | (s', Ok _) => b s'
    | (s', Raise e) => (s', Raise e)
    end.

Definition when (c : bool) (a : step) : step := if c then a else skip.

Definition emit (e : event) : step :=
  fun s => (mkH (h_df s) (h_locals s) (h_out s ++ [e]), Ok tt).

(** using.strip().upper() == token, for the parameter [using] (here
    [meth]) *)
Definition method_is (meth token : string) : bool :=
  String.eqb (Str.upper (Str.strip meth)) token.

(** [upper, lower, outliers = detector(df, column, mode='return')]:
    the detector is handed the str [column]; a returned None cannot be
    unpacked. *)
Definition detect (detector : DataFrame -> selector -> string -> W (option triple))
  (column : string) : step :=
  fun s =>
    match detector (h_df s) (Name column) "return"%string with
    | (o, Ok (Some t)) => (mkH (h_df s) (Some t) (h_out s ++ o), Ok tt)
    | (o, Ok None) => (mkH (h_df s) (h_locals s) (h_out s ++ o), Raise TypeError)
    | (o, Raise e) => (mkH (h_df s) (h_locals s) (h_out s ++ o), Raise e)
    end.

(** Reading a local variable of the call. *)
Definition with_locals (var : string) (k : triple -> step) : step :=
  fun s =>
    match h_locals s with
    | None => (s, Raise (UnboundLocalError var))
    | Some t => k t s
    end.

(** df.drop(index=outliers.index, inplace=True) *)
Definition remove_rows : step :=
  with_locals "outliers" (fun t s =>
    let labels := outliers_index (snd t) in
    if forallb (fun l => mem_label l (index (h_df s))) labels
    then (mkH (drop_rows (h_df s) labels) (h_locals s) (h_out s), Ok tt)
    else (s, Raise KeyErrorLabels)).

(** df.loc[ test(df[column]), column ] = bound; the right-hand side is
    evaluated first. *)
Definition assign_where (column : string) (test : float -> bool) (bound : float)
  : step :=
  fun s =>
    match get_col (h_df s) column with
    | None => (s, Raise (KeyError column))
    | Some (ObjCol _) => (s, Raise TypeError)
    | Some (NumCol vs) =>
        let vs' := map (fun v => if test v then bound else v) vs in
        (mkH (set_col (h_df s) column vs') (h_locals s) (h_out s), Ok tt)
    end.

Definition clamp_upper (column : string) : step :=
  with_locals "upper" (fun t =>
    let upper := fst (fst t) in
    assign_where column (fun v => upper <? v) upper).

Definition clamp_lower (column : string) : step :=
  with_locals "lower" (fun t =>
    let lower := snd (fst t) in
    assign_where column (fun v => v <? lower) lower).

(** The body of the loop over the columns. *)
Definition handle_column (meth action column : string) : step :=
  seq (when (method_is meth "IQR") (detect outliers_IQR column))
 (seq (when (method_is meth "Z") (detect outliers_z_score column))
 (seq (when (String.eqb action "remove")
        (seq remove_rows
             (with_locals "outliers" (fun t => emit (PrintRemoved (snd t))))))
 (seq (when (String.eqb action "compress")
        (seq (clamp_upper column)
        (seq (clamp_lower column)
             (with_locals "outliers" (fun t =>
                emit (PrintCompressed column (snd t)))))))
      (emit PrintSeparator)))).

Fixpoint handle_loop (meth action : string) (cols : list string) : step :=
  match cols with
  | [] => skip
  | column :: rest =>
      seq (handle_column meth action column) (handle_loop meth action rest)
  end.

(** A str is wrapped into a one-element list; nothing else is done to
    the selector. *)
Definition handle_outliers (df : DataFrame) (columns : selector)
  (meth action : string) : hstate * result unit :=
  let cols := match columns with Name s => [s] | Names l => l end in
  handle_loop meth action cols (mkH df None []).

(** ** Vocabulary of the statements *)

(** Arithmetic mean and population standard deviation of a sequence,
    as the specification words them. *)
Definition arithmetic_mean (xs : list float) : float :=
  Num.fsum xs / Num.of_nat (List.length xs).

Definition population_std (xs : list float) : float :=
  let mu := arithmetic_mean xs in
  sqrt (Num.fsum (map (fun v => (mu - v) * (mu - v)) xs)
        / Num.of_nat (List.length xs)).

(** A column without missing values. *)
Definition no_missing (feature : list float) : Prop :=
  Num.dropna feature = feature.

(** The row of a description with a given label. *)
Fixpoint stat (label : string) (rows : list (string * float)) : float :=
  match rows with
  | [] => nan
  | (l, v) :: rows' => if String.eqb l label then v else stat label rows'
  end.

(** The limits (upper, lower) each detector computes for a column. *)
Definition z_limits (feature : list float) : float * float :=
  let mean := Num.np_mean feature in
  let stdev := Num.np_std feature in
  (3 * stdev + mean, -3 * stdev + mean).

Definition iqr_limits (feature : list float) : float * float :=
  let q1 := Num.quantile 1 4 feature in
  let q3 := Num.quantile 3 4 feature in
  (q3 + 1.5 * (q3 - q1), q1 - 1.5 * (q3 - q1)).

(** The rows each detector flags, one boolean per row. *)
Definition z_flags (feature : list float) : list bool :=
  z_mask (z_scores (Num.np_mean feature) (Num.np_std feature) feature).

Definition iqr_flags (feature : list float) : list bool :=
  iqr_mask (snd (iqr_limits feature)) (fst (iqr_limits feature)) feature.

Definition recognised (meth : string) : bool :=
  method_is meth "IQR" || method_is meth "Z".

Definition limits (meth : string) (feature : list float) : float * float :=
  if method_is meth "IQR" then iqr_limits feature else z_limits feature.

Definition flags (meth : string) (feature : list float) : list bool :=
  if method_is meth "IQR" then iqr_flags feature else z_flags feature.

(** The statistics a method's mask depends on: the limits for the IQR,
    mean and standard deviation for the Z score; and the test the mask
    applies to a cell, given those statistics. *)
Definition statistics (meth : string) (feature : list float) : float * float :=
  if method_is meth "IQR" then iqr_limits feature
  else (Num.np_mean feature, Num.np_std feature).

Definition flagged_by (meth : string) (st : float * float) (v : float) : bool :=
  if method_is meth "IQR" then (v <? snd st) || (fst st <? v)
  else 3 <? abs ((v - fst st) / snd st).

(** The outlier records of a column whose rows carry the labels [idx]. *)
Definition records (meth : string) (idx : list Z) (feature : list float)
  : outliers :=
  if method_is meth "IQR"
  then IQRSeries (mkSeries (select (iqr_flags feature) idx)
                           (select (iqr_flags feature) feature))
  else ZFrame (select (z_flags feature) idx)
              (select (z_flags feature) feature)
              (select (z_flags feature)
                 (z_scores (Num.np_mean feature) (Num.np_std feature) feature)).

(** The two assignments of the compress action on one cell. *)
Definition clamp (upper lower v : float) : float :=
  let v1 := if upper <? v then upper else v in
  if v1 <? lower then lower else v1.

(** What is left of the loop body once the method has been dispatched. *)
Definition after_detect (action column : string) : step :=
  seq (when (String.eqb action "remove")
         (seq remove_rows
              (with_locals "outliers" (fun t => emit (PrintRemoved (snd t))))))
 (seq (when (String.eqb action "compress")
         (seq (clamp_upper column)
         (seq (clamp_lower column)
              (with_locals "outliers" (fun t =>
                 emit (PrintCompressed column (snd t)))))))
      (emit PrintSeparator)).

(** The triples a call in return mode hands back. *)
Definition returned (w : W (option triple)) : list triple :=
  match snd w with
  | Ok (Some t) => [t]
  | _ => []
  end.

(** ** Example frames *)

Definition labels6 : list Z := [0; 1; 2; 3; 4; 5]%Z.

(** The column of the specification's scenario, next to a text column. *)
Definition df_scenario : DataFrame :=
  mkDF labels6
       [ ("x", NumCol [1; 2; 3; 4; 5; 100]);
         ("name", ObjCol ["a"; "b"; "c"; "d"; "e"; "f"]) ].

(** Eleven rows, one far from the others (a Z score above 3 needs at
    least eleven rows). *)
Definition df_eleven : DataFrame :=
  mkDF [0; 1; 2; 3; 4; 5; 6; 7; 8; 9; 10]%Z
       [ ("x", NumCol [0; 0; 0; 0; 0; 0; 0; 0; 0; 0; 110]);
         ("y", NumCol [1; 2; 3; 4; 5; 6; 7; 8; 9; 10; 11]) ].

(** Twenty-two rows: twenty zeros, then 1 and 1000. *)
Definition df_long : DataFrame :=
  mkDF (map Z.of_nat (List.seq 0 22))
       [ ("x", NumCol (repeat 0 20 ++ [1; 1000])) ].

Definition df_skewed : DataFrame :=
  mkDF [0; 1; 2; 3]%Z [ ("x", NumCol [0; 0; 0; 100]) ].

Definition df_tail : DataFrame :=
  mkDF labels6 [ ("x", NumCol [0; 0; 0; 0; 1; 10]) ].

Definition df_flat : DataFrame :=
  mkDF [0; 1; 2; 3; 4; 5; 6]%Z
       [ ("x", NumCol [0; 0; 0; 0; 0; 0; 10]);
         ("name", ObjCol ["a"; "b"; "c"; "d"; "e"; "f"; "g"]) ].

Definition df_constant : DataFrame :=
  mkDF [0; 1; 2; 3; 4]%Z [ ("x", NumCol [10; 10; 10; 10; 10]) ].

(** 0.1 scaled by 2^-600: a positive normal number. *)
Definition tiny : float := 0x1.999999999999ap-604.

Definition df_tiny : DataFrame :=
  mkDF [0; 1; 2]%Z [ ("x", NumCol [tiny; tiny; tiny]) ].

Definition df_two : DataFrame :=
  mkDF labels6
       [ ("a", NumCol [1; 2; 3; 4; 5; 100]);
         ("b", NumCol [0; 0; 0; 0; 1; 10]) ].

(** Two cells near the largest binary64 numbers, of opposite signs:
    their difference overflows. *)
Definition huge : float := 0x1.ep+1023.

Definition df_wide : DataFrame :=
  mkDF [0; 1]%Z [ ("x", NumCol [- huge; huge]) ].

(** Nine zeros and 924: the score of 924 is exactly 3. *)
Definition df_edge : DataFrame :=
  mkDF [0; 1; 2; 3; 4; 5; 6; 7; 8; 9]%Z
       [ ("x", NumCol [0; 0; 0; 0; 0; 0; 0; 0; 0; 924]) ].

(** ** analysis_quant and analysis_cate *)

(** What the two analysis functions print and draw: the lines of the
    functions above, their own lines, and the calls to the plotting
    library (whose figures are not read back). *)
Inductive aevent : Type :=
| Printed (e : event)
| PrintAnalysisTitle (column : string)
| PrintCategoricalHint (column : string)     (* might be categorical *)
| PrintNumericalHint (column : string)       (* might be numerical *)
| PrintProceeding (column : string)          (* proceeding anyways *)
| PrintUniqueTitle
| PrintCounts (feature : column)             (* print(feature.value_counts()) *)
| PrintEmptyLine
| Subplots (sharex : bool) (figsize : Z * Z) (dpi : Z)
| Boxplot (feature : list float)
| Histplot (feature : list float) (bins : nat)
| Barplot (feature : column)                 (* bars of the value counts *)
| SetYLabel (label : string)
| Pie (feature : column)                     (* pie of the value counts *)
| ShowFigure
| PrintLongRule.

Definition AW (A : Type) : Type := (list aevent * result A)%type.

Definition aret {A : Type} (a : A) : AW A := ([], Ok a).
Definition araise {A : Type} (e : exn) : AW A := ([], Raise e).
Definition aprint (e : aevent) : AW unit := ([e], Ok tt).
Definition abind {A B : Type} (m : AW A) (k : A -> AW B) : AW B :=
  match m with
  | (o, Ok a) => let (o', r) := k a in (o ++ o', r)
  | (o, Raise e) => (o, Raise e)
  end.

(** A call to one of the functions above: its lines are printed, its
    exception propagates. *)
Definition call {A : Type} (w : W A) : AW A := (map Printed (fst w), snd w).

Notation "m >>> k" := (abind m (fun _ => k))
  (at level 62, right associativity).

(** The figure of a quantitative feature. *)
Definition quant_figure (feature : list float) (figsize : Z * Z) (dpi : Z)
  : AW unit :=
  aprint (Subplots true figsize dpi) >>>
  aprint (Boxplot feature) >>>
  aprint (Histplot feature 25) >>>
  aprint ShowFigure.

Fixpoint analysis_quant_loop (df : DataFrame) (figsize : Z * Z) (dpi : Z)
  (cols : list string) : AW unit :=
  match cols with
  | [] => aret tt
  | column :: rest =>
      match get_col df column with
      | None => araise (KeyError column)
      | Some (ObjCol _) =>
          aprint (PrintAnalysisTitle column) >>>
          aprint (PrintCategoricalHint column) >>>
          aprint PrintLongRule >>>
          analysis_quant_loop df figsize dpi rest
      | Some (NumCol feature) =>
          aprint (PrintAnalysisTitle column) >>>
          call (five_point_summary df (Name column)) >>>
          call (outliers_z_score df (Name column) "print") >>>
          call (outliers_IQR df (Name column) "print") >>>
          quant_figure feature figsize dpi >>>
          aprint PrintLongRule >>>
          analysis_quant_loop df figsize dpi rest
      end
  end.

Definition analysis_quant (df : DataFrame) (columns : selector)
  (figsize : Z * Z) (dpi : Z) : AW unit :=
  analysis_quant_loop df figsize dpi (normalize df columns).

(** The distinct values of a sequence, for an equality test. *)
Fixpoint distinct {A : Type} (eqb : A -> A -> bool) (l : list A) : list A :=
  match l with
  | [] => []
  | x :: l' =>
      let d := distinct eqb l' in
      if existsb (eqb x) d then d else x :: d
  end.

(** [feature.nunique()]: the number of distinct present values. *)
Definition nunique (feature : column) : nat :=
  match feature with
  | NumCol vs => List.length (distinct PrimFloat.eqb (Num.dropna vs))
  | ObjCol vs => List.length (distinct String.eqb vs)
  end.

(** The figure of a categorical feature. *)
Definition cate_figure (feature : column) (figsize : Z * Z) (dpi : Z)
  : AW unit :=
  aprint (Subplots false figsize dpi) >>>
  aprint (Barplot feature) >>>
  aprint (SetYLabel "count") >>>
  aprint (Pie feature) >>>
  aprint ShowFigure.

Fixpoint analysis_cate_loop (df : DataFrame) (figsize : Z * Z) (dpi : Z)
  (force : bool) (cols : list string) : AW unit :=
  match cols with
  | [] => aret tt
  | column :: rest =>
      match get_col df column with
      | None => araise (KeyError column)
      | Some feature =>
          aprint (PrintAnalysisTitle column) >>>
          if negb force && Nat.ltb 20 (nunique feature) then
            aprint (PrintNumericalHint column) >>>
            aprint PrintLongRule >>>
            analysis_cate_loop df figsize dpi force rest
          else
            (if force then aprint (PrintProceeding column) else aret tt) >>>
            aprint PrintUniqueTitle >>>
            aprint (PrintCounts feature) >>>
            aprint PrintEmptyLine >>>
            cate_figure feature figsize dpi >>>
            aprint PrintLongRule >>>
            analysis_cate_loop df figsize dpi force rest
      end
  end.

Definition analysis_cate (df : DataFrame) (columns : selector)
  (figsize : Z * Z) (dpi : Z) (force : bool) : AW unit :=
  analysis_cate_loop df figsize dpi force (normalize df columns).

(** ** Further vocabulary *)

(** A numeric column of the frame. *)
Definition numeric_in (df : DataFrame) (column : string) : Prop :=
  exists feature, get_col df column = Some (NumCol feature).

(** The lines [print_report] prints for one column. *)
Definition report_lines (column method : string) (t : triple) : list event :=
  [PrintTitle column method; PrintLimits (snd (fst t)) (fst (fst t));
   PrintBlank; PrintTotal (outliers_count (snd t))]
  ++ (if Nat.eqb (outliers_count (snd t)) 0 then []
      else [PrintOutliers (snd t)])
  ++ [PrintRule].

(** What each detector reports for a column of the frame, and what
    [five_point_summary] prints for it. *)
Definition z_report (df : DataFrame) (column : string) : list event :=
  match get_col df column with
  | Some (NumCol feature) =>
      report_lines column "Z score"
        (z_limits feature, records "Z" (index df) feature)
  | _ => []
  end.

Definition iqr_report (df : DataFrame) (column : string) : list event :=
  match get_col df column with
  | Some (NumCol feature) =>
      report_lines column "IQR"
        (iqr_limits feature, records "IQR" (index df) feature)
  | _ => []
  end.

Definition summary_lines (df : DataFrame) (column : string) : list event :=
  match get_col df column with
  | Some c => [PrintSummaryTitle column; PrintSummary (five_points c); PrintRule]
  | None => []
  end.

(** The values among the outlier records. *)
Definition outliers_values (o : outliers) : list float :=
  match o with
  | ZFrame _ values _ => values
  | IQRSeries s => s_values s
  end.

(** The frame restricted to the rows a mask keeps. *)
Definition restrict (df : DataFrame) (mask : list bool) : DataFrame :=
  mkDF (select mask (index df))
       (map (fun nc => (fst nc, select_col mask (snd nc))) (columns df)).

(** The mask that keeps what [m2] keeps among the rows [m1] keeps. *)
Fixpoint compose_mask (m1 m2 : list bool) : list bool :=
  match m1 with
  | [] => []
  | false :: m1' => false :: compose_mask m1' m2
  | true :: m1' =>
      match m2 with
      | [] => false :: compose_mask m1' []
      | b :: m2' => b :: compose_mask m1' m2'
      end
  end.

(** The lines and figure of [analysis_quant] for one column. *)
Definition quant_block (df : DataFrame) (figsize : Z * Z) (dpi : Z)
  (column : string) : list aevent :=
  match get_col df column with
  | Some (NumCol feature) =>
      [PrintAnalysisTitle column]
      ++ map Printed (summary_lines df column)
      ++ map Printed (z_report df column)
      ++ map Printed (iqr_report df column)
      ++ [Subplots true figsize dpi; Boxplot feature; Histplot feature 25;
          ShowFigure; PrintLongRule]
  | Some (ObjCol _) =>
      [PrintAnalysisTitle column; PrintCategoricalHint column; PrintLongRule]
  | None => []
  end.

(** The lines and figure of [analysis_cate] for one column. *)
Definition cate_block (df : DataFrame) (figsize : Z * Z) (dpi : Z)
  (force : bool) (column : string) : list aevent :=
  match get_col df column with
  | Some feature =>
      if negb force && Nat.ltb 20 (nunique feature)
      then [PrintAnalysisTitle column; PrintNumericalHint column; PrintLongRule]
      else [PrintAnalysisTitle column]
           ++ (if force then [PrintProceeding column] else [])
           ++ [PrintUniqueTitle; PrintCounts feature; PrintEmptyLine;
               Subplots false figsize dpi; Barplot feature; SetYLabel "count";
               Pie feature; ShowFigure; PrintLongRule]
  | None => []
  end.

(** A step keeps a property of the frame. *)
Definition keeps (R : DataFrame -> Prop) (a : step) : Prop :=
  forall s : hstate, R (h_df s) -> R (h_df (fst (a s))).

(** A step only appends to what has been printed: run after some
    output, it does what it does after none, with that output first. *)
Definition appends (a : step) : Prop :=
  forall (df : DataFrame) (loc : option triple) (out : list event),
    a (mkH df loc out)
    = (mkH (h_df (fst (a (mkH df loc []))))
           (h_locals (fst (a (mkH df loc []))))
           (out ++ h_out (fst (a (mkH df loc [])))),
       snd (a (mkH df loc []))).

(** The detector a recognised method token selects. *)
Definition detector_of (meth : string)
  : DataFrame -> selector -> string -> W (option triple) :=
  if method_is meth "IQR" then outliers_IQR else outliers_z_score.

(** The columns of a frame are as long as its index. *)
Definition rectangular (df : DataFrame) : Prop :=
  Forall (fun nc => col_length (snd nc) = List.length (index df)) (columns df).

(** A string of whitespace only. *)
Fixpoint all_space (s : string) : bool :=
  match s with
  | EmptyString => true
  | String c s' => Str.is_space c && all_space s'
  end.

(** Thirty distinct values, and a frame holding them beside a text
    column. *)
Definition thirty : list float :=
  map (fun n => Num.of_nat n) (List.seq 0 30).

Definition df_mixed : DataFrame :=
  mkDF (map Z.of_nat (List.seq 0 30))
       [ ("amount", NumCol thirty);
         ("kind", ObjCol (repeat "a" 29 ++ ["b"])) ].

Definition df_missing : DataFrame :=
  mkDF [0; 1; 2]%Z
       [ ("x", NumCol [nan; nan; nan]);
         ("y", NumCol [1; nan; 3]) ].

(** ** Facts about binary64 arithmetic

    Derived from the specification of the primitive operations over
    [spec_float]. *)

Module FloatFacts.

Lemma SFcompare_refl_not_lt (s : spec_float) : SFcompare s s <> Some Lt.
Proof.
  destruct s as [b|b| |b m e]; simpl; try discriminate.
  - destruct b; discriminate.
  - destruct b; rewrite Z.compare_refl, Pos.compare_cont_refl; discriminate.
Qed.

Lemma ltb_irrefl (x : float) : (x <? x) = false.
Proof.
  rewrite ltb_spec. unfold SFltb.
  pose proof (SFcompare_refl_not_lt (Prim2SF x)) as H.
  destruct (SFcompare (Prim2SF x) (Prim2SF x)) as [[]|]; congruence.
Qed.

Ltac cmp_cases :=
  repeat match goal with
    | H : context [Z.compare ?x ?y] |- _ => destruct (Z.compare_spec x y)
    | H : context [Pos.compare_cont Eq ?x ?y] |- _ =>
        change (Pos.compare_cont Eq x y) with (Pos.compare x y) in *;
        destruct (Pos.compare_spec x y)
    | |- context [Z.compare ?x ?y] => destruct (Z.compare_spec x y)
    | |- context [Pos.compare_cont Eq ?x ?y] =>
        change (Pos.compare_cont Eq x y) with (Pos.compare x y) in *;
        destruct (Pos.compare_spec x y)
    end.

Lemma SFltb_trans (a b c : spec_float) :
  SFltb a b = true -> SFltb b c = true -> SFltb a c = true.
Proof.
  unfold SFltb.
  destruct a as [[]|[]| |[] ma ea], b as [[]|[]| |[] mb eb],
           c as [[]|[]| |[] mc ec]; simpl; intros H1 H2;
    try discriminate; try reflexivity;
    cmp_cases; simpl in *; try discriminate; try reflexivity; try lia.
Qed.

Lemma ltb_trans (x y z : float) :
  (x <? y) = true -> (y <? z) = true -> (x <? z) = true.
Proof. rewrite !ltb_spec. apply SFltb_trans. Qed.

(** Adding to negative zero changes nothing. *)
Lemma neg_zero_add (m : float) : (-0) + m = m.
Proof.
  apply Prim2SF_inj. rewrite add_spec.
  change (Prim2SF (-0)) with (S754_zero true).
  destruct (Prim2SF m) as [[]|[]| |[] mm em]; reflexivity.
Qed.

Lemma eqb_refl (m : float) : is_nan m = false -> (m =? m) = true.
Proof. unfold is_nan. destruct (m =? m); [reflexivity | discriminate]. Qed.

(** Adding to positive zero gives a numerically equal value. *)
Lemma zero_add_eqb (m : float) : is_nan m = false -> (0 + m =? m) = true.
Proof.
  intros Hm. apply eqb_refl in Hm. revert Hm.
  rewrite !FloatAxioms.eqb_spec, add_spec.
  change (Prim2SF 0) with (S754_zero false).
  destruct (Prim2SF m) as [[]|[]| |[] mm em]; simpl; auto.
Qed.

(** A value minus itself is +0 or NaN. *)
Lemma SFsub_diag (s : spec_float) :
  SF64sub s s = S754_zero false \/ SF64sub s s = S754_nan.
Proof.
  destruct s as [[]|[]| |[] m e]; simpl; auto; left;
    unfold SF64sub, SFsub, shl_align;
    rewrite Z.min_id, Z.sub_diag; simpl;
    rewrite ?Z.pos_sub_diag; reflexivity.
Qed.

(** 0/0 and NaN/0 are NaN, and NaN exceeds nothing: the score of a
    value equal to the mean, over a zero deviation, is not flagged. *)
Lemma diag_score_not_flagged (m : float) :
  (3 <? abs ((m - m) / 0)) = false.
Proof.
  rewrite ltb_spec, abs_spec, div_spec, sub_spec.
  change (Prim2SF 0) with (S754_zero false).
  destruct (SFsub_diag (Prim2SF m)) as [-> | ->]; reflexivity.
Qed.


Lemma SFadd_comm (x y : spec_float) : SF64add x y = SF64add y x.
Proof.
  destruct x as [[]|[]| |[] mx ex], y as [[]|[]| |[] my ey];
    try reflexivity; unfold SF64add, SFadd;
    rewrite (Z.min_comm ey ex), Z.add_comm; reflexivity.
Qed.

Lemma add_comm (x y : float) : x + y = y + x.
Proof. apply Prim2SF_inj. rewrite !add_spec. apply SFadd_comm. Qed.

Lemma SFadd_opp_l (t z : spec_float) : SF64add (SFopp t) z = SF64sub z t.
Proof.
  destruct t as [[]|[]| |[] mt et], z as [[]|[]| |[] mz ez];
    try reflexivity; unfold SF64add, SF64sub, SFadd, SFsub, SFopp;
    rewrite (Z.min_comm ez et); simpl negb; unfold cond_Zopp;
    f_equal; lia.
Qed.

Lemma binary_round_aux_opp (s : bool) (m e : Z) (l : location) :
  SFopp (binary_round_aux prec emax s m e l)
  = binary_round_aux prec emax (negb s) m e l.
Proof.
  unfold binary_round_aux.
  destruct (shr_fexp prec emax m e l) as [mrs' e'].
  destruct (shr_fexp prec emax _ e' loc_Exact) as [mrs'' e''].
  destruct (shr_m mrs''); try reflexivity.
  destruct (Z.leb e'' (emax - prec)); reflexivity.
Qed.

Lemma SFmul_opp_l (x y : spec_float) :
  SF64mul (SFopp x) y = SFopp (SF64mul x y).
Proof.
  destruct x as [[]|[]| |[] mx ex], y as [[]|[]| |[] my ey];
    try reflexivity; unfold SF64mul, SFmul, SFopp at 1;
    rewrite binary_round_aux_opp; reflexivity.
Qed.

(** The lower limit as the program writes it and as the text does. *)
Lemma lower_limit_forms (s m : float) : -3 * s + m = m - 3 * s.
Proof.
  apply Prim2SF_inj. rewrite add_spec, sub_spec, !mul_spec.
  change (Prim2SF (-3)) with (SFopp (Prim2SF 3)).
  rewrite SFmul_opp_l. apply SFadd_opp_l.
Qed.

End FloatFacts.

(** ** Masks, selections and filters *)

Section Select.

Context {A B : Type}.

Lemma select_map_filter (p : A -> bool) (f : A -> B) (l : list A) :
  select (map p l) (map f l) = map f (filter p l).
Proof.
  induction l as [|a l IH]; simpl; [reflexivity|].
  destruct (p a); simpl; now rewrite IH.
Qed.

Lemma select_incl (mask : list bool) (l : list A) (x : A) :
  In x (select mask l) -> In x l.
Proof.
  revert l; induction mask as [|b mask IH]; intros [|a l]; simpl; try tauto.
  destruct b; simpl; intros H; [destruct H|]; auto.
Qed.

Lemma select_all_true (mask : list bool) (l : list A) :
  Forall (fun b => b = true) mask ->
  (List.length l <= List.length mask)%nat ->
  select mask l = l.
Proof.
  revert l; induction mask as [|b mask IH]; intros [|a l] Hall Hlen;
    simpl in *; try reflexivity; try lia.
  inversion Hall; subst. f_equal. apply IH; [assumption | lia].
Qed.

End Select.

Lemma fst_combine {A B : Type} (l : list A) (l' : list B) :
  List.length l = List.length l' -> map fst (combine l l') = l.
Proof.
  revert l'; induction l as [|a l IH]; intros [|b l'] H; simpl in *;
    try reflexivity; try discriminate.
  f_equal. apply IH. now injection H.
Qed.

Lemma snd_combine {A B : Type} (l : list A) (l' : list B) :
  List.length l = List.length l' -> map snd (combine l l') = l'.
Proof.
  revert l'; induction l as [|a l IH]; intros [|b l'] H; simpl in *;
    try reflexivity; try discriminate.
  f_equal. apply IH. now injection H.
Qed.

(** Selecting the labels and the cells of a column by a mask computed
    on the cells is filtering the rows. *)
Lemma select_rows {B : Type} (p : float -> bool) (g : float -> B)
  (idx : list Z) (feature : list float) :
  List.length idx = List.length feature ->
  let mask := map p feature in
  let kept := filter (fun r => p (snd r)) (combine idx feature) in
  select mask idx = map fst kept /\
  select mask (map g feature) = map (fun r => g (snd r)) kept.
Proof.
  simpl. revert feature.
  induction idx as [|l idx IH]; intros [|v feature] Hlen; simpl in *;
    try discriminate; [split; reflexivity|].
  injection Hlen as Hlen. destruct (IH _ Hlen) as [IH1 IH2].
  destruct (p v); simpl; rewrite IH1, IH2; split; reflexivity.
Qed.

(** ** The statistics of a column without missing values *)

Lemma np_mean_no_missing (feature : list float) :
  no_missing feature -> Num.np_mean feature = arithmetic_mean feature.
Proof.
  unfold no_missing, Num.np_mean, Num.nanmean. intros ->.
  destruct feature; reflexivity.
Qed.

Lemma np_std_no_missing (feature : list float) :
  no_missing feature -> Num.np_std feature = population_std feature.
Proof.
  unfold no_missing, Num.np_std, Num.nanstd. intros ->.
  destruct feature; [reflexivity|].
  unfold population_std, arithmetic_mean. simpl Nat.leb. cbv iota.
  now rewrite Nat.sub_0_r.
Qed.

Lemma describe_quartiles (feature : list float) :
  iloc2 (Num.describe feature) 4 6
  = wret (stat "25%" (Num.describe feature), stat "75%" (Num.describe feature)).
Proof. reflexivity. Qed.

(** ** C1: what outliers_z_score computes *)

(** C1.  For a numeric column without missing values, selected first,
    [outliers_z_score] in return mode computes the arithmetic mean mu
    and the population standard deviation sigma of the column, returns
    upper = mu + 3 sigma and lower = mu - 3 sigma, and returns as
    outliers exactly the rows with |(value - mu) / sigma| > 3, each with
    its label, its original value and its score, in row order. *)
Theorem outliers_z_score_computes
  (df : DataFrame) (columns : selector) (column : string)
  (rest : list string) (feature : list float) :
  normalize df columns = column :: rest ->
  get_col df column = Some (NumCol feature) ->
  List.length (index df) = List.length feature ->
  no_missing feature ->
  let mu := arithmetic_mean feature in
  let sigma := population_std feature in
  let score := fun v => (v - mu) / sigma in
  let flagged :=
    filter (fun r => 3 <? abs (score (snd r))) (combine (index df) feature) in
  outliers_z_score df columns "return"
  = ([], Ok (Some (mu + 3 * sigma, mu - 3 * sigma,
                   ZFrame (map fst flagged) (map snd flagged)
                          (map (fun r => score (snd r)) flagged)))).
Proof.
  intros Hnorm Hget Hlen Hmiss mu sigma score flagged.
  unfold outliers_z_score. rewrite Hnorm. simpl.
  unfold z_score_calc. rewrite Hget.
  rewrite (np_mean_no_missing _ Hmiss), (np_std_no_missing _ Hmiss).
  fold mu sigma. unfold z_scores, z_mask. rewrite map_map.
  subst score flagged. cbv beta.
  destruct (select_rows (fun v => 3 <? abs ((v - mu) / sigma))
              (fun v => (v - mu) / sigma) _ _ Hlen) as [Hidx Hz].
  destruct (select_rows (fun v => 3 <? abs ((v - mu) / sigma))
              (fun v => v) _ _ Hlen) as [_ Hv].
  rewrite map_id in Hv. cbv beta in Hidx, Hz, Hv.
  rewrite Hidx, Hz, Hv.
  rewrite FloatFacts.lower_limit_forms, (FloatFacts.add_comm (3 * sigma) mu).
  reflexivity.
Qed.

Lemma outliers_z_score_computes_witness :
  outliers_z_score df_eleven (Name "x") "return"
  = ([], Ok (Some (arithmetic_mean [0; 0; 0; 0; 0; 0; 0; 0; 0; 0; 110]
                   + 3 * population_std [0; 0; 0; 0; 0; 0; 0; 0; 0; 0; 110],
                   arithmetic_mean [0; 0; 0; 0; 0; 0; 0; 0; 0; 0; 110]
                   - 3 * population_std [0; 0; 0; 0; 0; 0; 0; 0; 0; 0; 110],
                   ZFrame [10%Z] [110] [0x1.94c583ada5b53p+1]))).
Proof.
  exact (outliers_z_score_computes df_eleven (Name "x") "x" []
           [0; 0; 0; 0; 0; 0; 0; 0; 0; 0; 110]
           eq_refl eq_refl eq_refl eq_refl).
Defined.

(** ** C2: what outliers_IQR computes *)

(** C2.  For a numeric column selected first, [outliers_IQR] in return
    mode takes Q1 and Q3 from the rows 25% and 75% of the column's
    description (the quartiles [five_point_summary] prints, by linear
    interpolation between closest ranks), returns
    upper = Q3 + 1.5 (Q3 - Q1) and lower = Q1 - 1.5 (Q3 - Q1), and returns
    as outliers exactly the rows with value < lower or value > upper,
    each with its label and its raw value, in row order. *)
Theorem outliers_IQR_computes
  (df : DataFrame) (columns : selector) (column : string)
  (rest : list string) (feature : list float) :
  normalize df columns = column :: rest ->
  get_col df column = Some (NumCol feature) ->
  List.length (index df) = List.length feature ->
  let q1 := stat "25%" (Num.describe feature) in
  let q3 := stat "75%" (Num.describe feature) in
  let upper := q3 + 1.5 * (q3 - q1) in
  let lower := q1 - 1.5 * (q3 - q1) in
  let flagged :=
    filter (fun r => (snd r <? lower) || (upper <? snd r))
           (combine (index df) feature) in
  outliers_IQR df columns "return"
  = ([], Ok (Some (upper, lower,
                   IQRSeries (mkSeries (map fst flagged) (map snd flagged)))))
  /\ q1 = Num.quantile 1 4 feature
  /\ q3 = Num.quantile 3 4 feature
  /\ five_points (NumCol feature)
     = NumSummary [ ("min", Num.fmin feature); ("25%", q1);
                    ("50%", Num.quantile 1 2 feature); ("75%", q3);
                    ("max", Num.fmax feature) ].
Proof.
  intros Hnorm Hget Hlen q1 q3 upper lower flagged.
  repeat split; try reflexivity.
  unfold outliers_IQR. rewrite Hnorm. simpl.
  unfold iqr_calc. rewrite Hget, describe_quartiles.
  fold q1 q3. simpl. fold upper lower. unfold iqr_mask.
  destruct (select_rows (fun v => (v <? lower) || (upper <? v))
              (fun v => v) _ _ Hlen) as [Hidx Hv].
  rewrite map_id in Hv. cbv beta in Hidx, Hv.
  rewrite Hidx, Hv. reflexivity.
Qed.

Lemma outliers_IQR_computes_witness :
  outliers_IQR df_scenario (Name "x") "return"
  = ([], Ok (Some (8.5, -1.5, IQRSeries (mkSeries [5%Z] [100])))).
Proof.
  exact (proj1 (outliers_IQR_computes df_scenario (Name "x") "x" []
                  [1; 2; 3; 4; 5; 100] eq_refl eq_refl eq_refl)).
Defined.

(** ** Frames: lookups after a drop or an assignment *)

Lemma lookup_map_snd (f : column -> column) (name : string)
  (cols : list (string * column)) :
  lookup name (map (fun nc => (fst nc, f (snd nc))) cols)
  = option_map f (lookup name cols).
Proof.
  induction cols as [|[n c] cols IH]; simpl; [reflexivity|].
  destruct (String.eqb n name); [reflexivity | exact IH].
Qed.

Lemma get_col_drop_rows (df : DataFrame) (labels : list Z) (name : string) :
  get_col (drop_rows df labels) name
  = option_map (select_col (keep_mask labels (index df))) (get_col df name).
Proof. unfold get_col, drop_rows; simpl. apply lookup_map_snd. Qed.

Lemma get_col_set_col_other (df : DataFrame) (name other : string)
  (vs : list float) :
  other <> name -> get_col (set_col df name vs) other = get_col df other.
Proof.
  intros Hne. unfold get_col, set_col; simpl.
  induction (columns df) as [|[n c] cols IH]; simpl; [reflexivity|].
  destruct (String.eqb_spec n name) as [->|Hn]; simpl.
  - destruct (String.eqb_spec name other) as [->|_]; [congruence | exact IH].
  - destruct (String.eqb n other); [reflexivity | exact IH].
Qed.

Lemma get_col_set_col_same (df : DataFrame) (name : string)
  (vs : list float) (c : column) :
  get_col df name = Some c ->
  get_col (set_col df name vs) name = Some (NumCol vs).
Proof.
  unfold get_col, set_col; simpl.
  induction (columns df) as [|[n c'] cols IH]; simpl; [discriminate|].
  destruct (String.eqb_spec n name) as [->|Hn]; simpl.
  - now rewrite String.eqb_refl.
  - destruct (String.eqb_spec n name); [congruence | exact IH].
Qed.

(** Assigning to a column the cells it already has changes nothing. *)
Lemma set_col_same_cells (df : DataFrame) (name : string) (vs : list float) :
  set_col (set_col df name vs) name vs = set_col df name vs.
Proof.
  unfold set_col; simpl. f_equal. rewrite map_map. apply map_ext.
  intros [n c]; simpl. destruct (String.eqb_spec n name) as [->|Hn]; simpl.
  - now rewrite String.eqb_refl.
  - destruct (String.eqb_spec n name); [congruence | reflexivity].
Qed.

(** With one label per row, dropping the labels selected by a mask
    keeps exactly the rows the mask leaves out. *)
Lemma mem_label_In (l : Z) (labels : list Z) :
  mem_label l labels = true <-> In l labels.
Proof.
  unfold mem_label. rewrite existsb_exists. split.
  - intros (x & Hx & Heq). apply Z.eqb_eq in Heq. now subst.
  - intros H. exists l. split; [assumption | apply Z.eqb_refl].
Qed.

Lemma keep_mask_select (mask : list bool) (idx : list Z) :
  NoDup idx -> List.length mask = List.length idx ->
  keep_mask (select mask idx) idx = map negb mask.
Proof.
  unfold keep_mask. revert mask.
  induction idx as [|l idx IH]; intros [|b mask] Hnd Hlen; simpl in *;
    try discriminate; [reflexivity|].
  inversion Hnd as [|? ? Hnotin Hnd']; subst. injection Hlen as Hlen.
  assert (Hl : mem_label l (select mask idx) = false).
  { destruct (mem_label l (select mask idx)) eqn:E; [|reflexivity].
    apply mem_label_In, select_incl in E. contradiction. }
  f_equal.
  - destruct b; simpl; [now rewrite Z.eqb_refl | now rewrite Hl].
  - rewrite <- (IH mask Hnd' Hlen). apply map_ext_in. intros x Hx.
    destruct b; simpl; [|reflexivity].
    destruct (Z.eqb_spec x l) as [->|_]; [contradiction | reflexivity].
Qed.

Lemma selected_labels_known (mask : list bool) (idx : list Z) :
  forallb (fun l => mem_label l idx) (select mask idx) = true.
Proof.
  apply forallb_forall. intros l Hl. apply mem_label_In.
  now apply select_incl in Hl.
Qed.

(** ** The dispatch on the method and the detectors in return mode *)

Lemma method_exclusive (meth : string) :
  method_is meth "IQR" = true -> method_is meth "Z" = false.
Proof.
  unfold method_is. intros H. apply String.eqb_eq in H. now rewrite H.
Qed.

Lemma normalize_name (df : DataFrame) (column : string) :
  column <> all_the_columns -> normalize df (Name column) = [column].
Proof.
  intros Hne. simpl.
  destruct (String.eqb_spec column all_the_columns); [contradiction | reflexivity].
Qed.

Lemma z_score_return (df : DataFrame) (column : string) (feature : list float) :
  column <> all_the_columns ->
  get_col df column = Some (NumCol feature) ->
  outliers_z_score df (Name column) "return"
  = ([], Ok (Some (z_limits feature, records "Z" (index df) feature))).
Proof.
  intros Hne Hget. unfold outliers_z_score.
  rewrite (normalize_name _ _ Hne). simpl.
  unfold z_score_calc. rewrite Hget. reflexivity.
Qed.

Lemma IQR_return (df : DataFrame) (column : string) (feature : list float) :
  column <> all_the_columns ->
  get_col df column = Some (NumCol feature) ->
  outliers_IQR df (Name column) "return"
  = ([], Ok (Some (iqr_limits feature, records "IQR" (index df) feature))).
Proof.
  intros Hne Hget. unfold outliers_IQR.
  rewrite (normalize_name _ _ Hne). simpl.
  unfold iqr_calc. rewrite Hget. reflexivity.
Qed.

Lemma records_method (meth : string) (idx : list Z) (feature : list float) :
  records meth idx feature
  = if method_is meth "IQR" then records "IQR" idx feature
    else records "Z" idx feature.
Proof. unfold records. destruct (method_is meth "IQR"); reflexivity. Qed.

Lemma records_index (meth : string) (idx : list Z) (feature : list float) :
  outliers_index (records meth idx feature) = select (flags meth feature) idx.
Proof. unfold records, flags. destruct (method_is meth "IQR"); reflexivity. Qed.

(** A recognised method binds the three locals to what its detector
    returns for the column, and prints nothing. *)
Lemma handle_column_recognised (meth action column : string)
  (df : DataFrame) (loc : option triple) (out : list event)
  (feature : list float) :
  recognised meth = true ->
  column <> all_the_columns ->
  get_col df column = Some (NumCol feature) ->
  handle_column meth action column (mkH df loc out)
  = after_detect action column
      (mkH df (Some (limits meth feature, records meth (index df) feature)) out).
Proof.
  intros Hrec Hne Hget. unfold handle_column, recognised, limits in *.
  rewrite records_method. fold (after_detect action column).
  unfold seq at 1 2.
  destruct (method_is meth "IQR") eqn:EI.
  - rewrite (method_exclusive _ EI). unfold when, skip, detect. simpl h_df.
    rewrite (IQR_return _ _ _ Hne Hget). simpl. now rewrite app_nil_r.
  - simpl in Hrec. rewrite Hrec. unfold when, skip, detect. simpl h_df.
    rewrite (z_score_return _ _ _ Hne Hget). simpl. now rewrite app_nil_r.
Qed.

(** An unrecognised method leaves the locals as they were. *)
Lemma handle_column_unrecognised (meth action column : string) (s : hstate) :
  recognised meth = false ->
  handle_column meth action column s = after_detect action column s.
Proof.
  unfold recognised. intros Hrec. apply orb_false_elim in Hrec as [HI HZ].
  unfold handle_column. fold (after_detect action column).
  rewrite HI, HZ. unfold seq at 1 2, when, skip. reflexivity.
Qed.

Lemma lookup_In (name : string) (cols : list (string * column)) (c : column) :
  lookup name cols = Some c -> In (name, c) cols.
Proof.
  induction cols as [|[n c'] cols IH]; simpl; [discriminate|].
  destruct (String.eqb_spec n name) as [->|Hn].
  - intros [= ->]. now left.
  - intros H. right. now apply IH.
Qed.

Lemma well_formed_length (df : DataFrame) (name : string) (c : column) :
  well_formed df -> get_col df name = Some c ->
  col_length c = List.length (index df).
Proof.
  intros (_ & _ & Hall) Hget. apply lookup_In in Hget.
  rewrite Forall_forall in Hall. exact (Hall _ Hget).
Qed.

Lemma flags_length (meth : string) (feature : list float) :
  List.length (flags meth feature) = List.length feature.
Proof.
  unfold flags, iqr_flags, iqr_mask, z_flags, z_mask, z_scores.
  destruct (method_is meth "IQR"); now rewrite ?length_map.
Qed.

(** The remove action after a successful detection. *)
Lemma after_detect_remove (column : string) (df : DataFrame) (lim : float * float)
  (mask : list bool) (o : outliers) (out : list event) :
  outliers_index o = select mask (index df) ->
  after_detect "remove" column (mkH df (Some (lim, o)) out)
  = (mkH (drop_rows df (select mask (index df))) (Some (lim, o))
         (out ++ [PrintRemoved o; PrintSeparator]), Ok tt).
Proof.
  intros Hidx. unfold after_detect. simpl when.
  unfold seq, remove_rows, with_locals, skip, emit. simpl.
  rewrite Hidx, selected_labels_known. simpl.
  now rewrite <- app_assoc.
Qed.

(** One remove call on a numeric column. *)
Lemma remove_once (df : DataFrame) (A meth : string) (feature : list float) :
  A <> all_the_columns ->
  recognised meth = true ->
  get_col df A = Some (NumCol feature) ->
  handle_outliers df (Name A) meth "remove"
  = (mkH (drop_rows df (select (flags meth feature) (index df)))
         (Some (limits meth feature, records meth (index df) feature))
         [PrintRemoved (records meth (index df) feature); PrintSeparator],
     Ok tt).
Proof.
  intros Hne Hrec Hget.
  unfold handle_outliers. simpl handle_loop. unfold seq at 1.
  rewrite (handle_column_recognised _ _ _ _ _ _ _ Hrec Hne Hget).
  rewrite (after_detect_remove _ _ _ (flags meth feature))
    by apply records_index.
  reflexivity.
Qed.

(** ** C3: removing outliers removes whole rows *)

(** C3.  In a frame with one label per row, [handle_outliers] with
    action 'remove' on a numeric column A (a recognised method, A not
    the sentinel) succeeds and leaves, in the index and in every column B
    alike, exactly the rows not flagged in A: a flagged row disappears
    from every column, an unflagged row keeps its value in every
    column. *)
Theorem remove_drops_rows_in_every_column
  (df : DataFrame) (A meth : string) (feature : list float) :
  well_formed df ->
  A <> all_the_columns ->
  recognised meth = true ->
  get_col df A = Some (NumCol feature) ->
  let unflagged := map negb (flags meth feature) in
  let r := handle_outliers df (Name A) meth "remove" in
  snd r = Ok tt /\
  outliers_index (records meth (index df) feature)
  = select (flags meth feature) (index df) /\
  h_out (fst r) = [PrintRemoved (records meth (index df) feature);
                   PrintSeparator] /\
  index (h_df (fst r)) = select unflagged (index df) /\
  forall (B : string) (c : column),
    get_col df B = Some c ->
    get_col (h_df (fst r)) B = Some (select_col unflagged c).
Proof.
  intros Hwf Hne Hrec Hget unflagged r.
  assert (Hr := remove_once _ _ _ _ Hne Hrec Hget). fold r in Hr.
  assert (Hkeep : keep_mask (select (flags meth feature) (index df)) (index df)
                  = unflagged).
  { apply keep_mask_select; [apply Hwf|].
    rewrite flags_length.
    exact (well_formed_length _ _ _ Hwf Hget). }
  rewrite Hr. cbn [fst snd h_df h_out]. repeat split.
  - apply records_index.
  - unfold drop_rows. cbn [index]. now rewrite Hkeep.
  - intros B c HB. rewrite get_col_drop_rows, HB, Hkeep. reflexivity.
Qed.

Lemma remove_drops_rows_in_every_column_witness :
  let r := handle_outliers df_scenario (Name "x") "IQR" "remove" in
  snd r = Ok tt /\
  index (h_df (fst r)) = [0; 1; 2; 3; 4]%Z /\
  get_col (h_df (fst r)) "name" = Some (ObjCol ["a"; "b"; "c"; "d"; "e"]).
Proof.
  assert (Hwf : well_formed df_scenario).
  { unfold well_formed, df_scenario, labels6; simpl. repeat split.
    - repeat constructor; simpl; intuition discriminate.
    - repeat constructor; simpl; intuition discriminate.
    - repeat constructor. }
  assert (Hne : "x" <> all_the_columns) by discriminate.
  destruct (remove_drops_rows_in_every_column df_scenario "x" "IQR"
              [1; 2; 3; 4; 5; 100] Hwf Hne eq_refl eq_refl)
    as (Hok & _ & _ & Hidx & Hcols).
  split; [exact Hok|]. split; [exact Hidx|].
  exact (Hcols "name" (ObjCol ["a"; "b"; "c"; "d"; "e"; "f"]) eq_refl).
Defined.

(** ** The compress action *)

Lemma set_col_overwrite (df : DataFrame) (name : string) (vs ws : list float) :
  set_col (set_col df name vs) name ws = set_col df name ws.
Proof.
  unfold set_col; simpl. f_equal. rewrite map_map. apply map_ext.
  intros [n c]; simpl. destruct (String.eqb_spec n name) as [->|Hn]; simpl.
  - now rewrite String.eqb_refl.
  - destruct (String.eqb_spec n name); [congruence | reflexivity].
Qed.

Lemma after_detect_compress (column : string) (df : DataFrame)
  (upper lower : float) (o : outliers) (out : list event)
  (feature : list float) :
  get_col df column = Some (NumCol feature) ->
  after_detect "compress" column (mkH df (Some (upper, lower, o)) out)
  = (mkH (set_col df column (map (clamp upper lower) feature))
         (Some (upper, lower, o))
         (out ++ [PrintCompressed column o; PrintSeparator]), Ok tt).
Proof.
  intros Hget. unfold after_detect. simpl when.
  unfold seq, clamp_upper, clamp_lower, with_locals, assign_where, skip, emit.
  cbn [h_df h_locals h_out fst snd]. rewrite Hget. cbn [h_df h_locals h_out].
  rewrite (get_col_set_col_same _ _ _ _ Hget). cbn [h_df h_locals h_out].
  rewrite set_col_overwrite, map_map, <- app_assoc. reflexivity.
Qed.

Lemma clamp_above (upper lower v : float) :
  (upper <? lower) = false -> (upper <? v) = true ->
  clamp upper lower v = upper.
Proof. unfold clamp. intros Hul ->. now rewrite Hul. Qed.

(** The second assignment sees a cell below lower also when the first
    one has just rewritten it: upper is then below lower as well. *)
Lemma clamp_below (upper lower v : float) :
  (v <? lower) = true -> clamp upper lower v = lower.
Proof.
  unfold clamp. intros Hvl.
  destruct (upper <? v) eqn:Huv.
  - now rewrite (FloatFacts.ltb_trans _ _ _ Huv Hvl).
  - now rewrite Hvl.
Qed.

Lemma clamp_above_inverted (upper lower v : float) :
  (upper <? lower) = true -> (upper <? v) = true ->
  clamp upper lower v = lower.
Proof. unfold clamp. intros Hul ->. now rewrite Hul. Qed.

Lemma clamp_within (upper lower v : float) :
  (upper <? v) = false -> (v <? lower) = false ->
  clamp upper lower v = v.
Proof. unfold clamp. intros -> ->. reflexivity. Qed.

Lemma clamp_idempotent (upper lower v : float) :
  clamp upper lower (clamp upper lower v) = clamp upper lower v.
Proof.
  unfold clamp.
  destruct (upper <? v) eqn:Huv.
  - destruct (upper <? lower) eqn:Hul.
    + now rewrite Hul, Hul.
    + now rewrite FloatFacts.ltb_irrefl, Hul.
  - destruct (v <? lower) eqn:Hvl.
    + destruct (upper <? lower) eqn:Hul.
      * now rewrite Hul.
      * now rewrite FloatFacts.ltb_irrefl.
    + now rewrite Huv, Hvl.
Qed.

(** One compress call on a numeric column, whatever the limits are. *)
Lemma compress_once (df : DataFrame) (A meth : string) (feature : list float) :
  A <> all_the_columns ->
  recognised meth = true ->
  get_col df A = Some (NumCol feature) ->
  let upper := fst (limits meth feature) in
  let lower := snd (limits meth feature) in
  handle_outliers df (Name A) meth "compress"
  = (mkH (set_col df A (map (clamp upper lower) feature))
         (Some (limits meth feature, records meth (index df) feature))
         [PrintCompressed A (records meth (index df) feature);
          PrintSeparator], Ok tt).
Proof.
  intros Hne Hrec Hget upper lower.
  unfold handle_outliers. simpl handle_loop. unfold seq at 1.
  rewrite (handle_column_recognised _ _ _ _ _ _ _ Hrec Hne Hget).
  rewrite (surjective_pairing (limits meth feature)).
  rewrite (after_detect_compress _ _ _ _ _ _ _ Hget). reflexivity.
Qed.

(** ** C4: compressing clamps the cells of one column *)

(** C4, as stated, fails, in two ways.

    On the column [-huge, huge] with the IQR method the interpolation of
    the quartiles overflows: Q1 is +inf and Q3 is -inf, so the computed
    upper limit is -inf and the computed lower limit is +inf.  Both cells
    are greater than upper; the first assignment sets them to upper, the
    second one finds them below lower, and they end at lower, not at
    upper.

    On the column of nine zeros and 924 with the Z method the mean is
    92.4, the standard deviation 277.2 and the score of 924 is exactly 3:
    the detector flags no row and returns no outlier.  The computed upper
    limit 3 * 277.2 + 92.4 is rounded to the float just below 924, so the
    cell 924 is greater than upper and is rewritten: a cell the detector
    did not flag is changed. *)
Lemma compress_moves_more_than_flagged_cells :
  let wide := [- huge; huge] in
  let r1 := handle_outliers df_wide (Name "x") "IQR" "compress" in
  let edge := [0; 0; 0; 0; 0; 0; 0; 0; 0; 924] in
  let r2 := handle_outliers df_edge (Name "x") "Z" "compress" in
  (get_col df_wide "x" = Some (NumCol wide) /\
   limits "IQR" wide = (neg_infinity, infinity) /\
   (fst (limits "IQR" wide) <? - huge) = true /\
   (fst (limits "IQR" wide) <? huge) = true /\
   snd r1 = Ok tt /\
   get_col (h_df (fst r1)) "x" = Some (NumCol [infinity; infinity]) /\
   infinity <> fst (limits "IQR" wide)) /\
  (get_col df_edge "x" = Some (NumCol edge) /\
   flags "Z" edge = repeat false 10 /\
   returned (outliers_z_score df_edge (Name "x") "return")
   = [(limits "Z" edge, ZFrame [] [] [])] /\
   fst (limits "Z" edge) = 0x1.cdfffffffffffp+9 /\
   (fst (limits "Z" edge) <? 924) = true /\
   snd r2 = Ok tt /\
   get_col (h_df (fst r2)) "x"
   = Some (NumCol [0; 0; 0; 0; 0; 0; 0; 0; 0; fst (limits "Z" edge)]) /\
   get_col (h_df (fst r2)) "x" <> get_col df_edge "x").
Proof.
  cbv zeta. split.
  - repeat split; try (vm_compute; reflexivity).
    intros H.
    apply (f_equal (fun v => 0 <? v)) in H. vm_compute in H. discriminate.
  - repeat split; try (vm_compute; reflexivity).
    intros H.
    apply (f_equal (fun c => match c with
                             | Some (NumCol [_; _; _; _; _; _; _; _; _; v]) =>
                                 v <? 924
                             | _ => false
                             end)) in H.
    vm_compute in H. discriminate.
Qed.

(** C4, amended.  [handle_outliers] with action 'compress' on a numeric
    column A (a recognised method, A not the sentinel) succeeds, keeps
    the index and the row count, and leaves every other column as it
    was.  In column A every value less than the computed lower limit is
    set to lower; every value greater than the computed upper limit is
    set to upper when upper is not below lower, and is moved on to lower
    by the second assignment when upper is below lower; every cell that
    is neither greater than upper nor less than lower is unchanged.
    With the IQR method the cells the detector does not flag are such
    cells, and so are unchanged. *)
Theorem compress_clamps_target_column_only
  (df : DataFrame) (A meth : string) (feature : list float) :
  A <> all_the_columns ->
  recognised meth = true ->
  get_col df A = Some (NumCol feature) ->
  let upper := fst (limits meth feature) in
  let lower := snd (limits meth feature) in
  let r := handle_outliers df (Name A) meth "compress" in
  snd r = Ok tt /\
  index (h_df (fst r)) = index df /\
  (forall B : string, B <> A -> get_col (h_df (fst r)) B = get_col df B) /\
  exists feature' : list float,
    get_col (h_df (fst r)) A = Some (NumCol feature') /\
    List.length feature' = List.length feature /\
    forall (i : nat) (v : float),
      nth_error feature i = Some v ->
      exists v' : float,
        nth_error feature' i = Some v' /\
        ((v <? lower) = true -> v' = lower) /\
        ((upper <? v) = true -> (upper <? lower) = false -> v' = upper) /\
        ((upper <? v) = true -> (upper <? lower) = true -> v' = lower) /\
        ((upper <? v) = false -> (v <? lower) = false -> v' = v) /\
        (method_is meth "IQR" = true ->
         nth_error (flags meth feature) i = Some false -> v' = v).
Proof.
  intros Hne Hrec Hget upper lower r.
  subst r. rewrite (compress_once _ _ _ _ Hne Hrec Hget).
  fold upper lower. cbn [fst snd h_df]. repeat split.
  - intros B HB. now apply get_col_set_col_other.
  - exists (map (clamp upper lower) feature). split; [|split].
    + exact (get_col_set_col_same _ _ _ _ Hget).
    + apply length_map.
    + intros i v Hi. exists (clamp upper lower v).
      split; [|split; [|split; [|split; [|split]]]].
      * now rewrite nth_error_map, Hi.
      * now apply clamp_below.
      * intros Huv Hul. now apply clamp_above.
      * intros Huv Hul. now apply clamp_above_inverted.
      * now apply clamp_within.
      * intros HI Hflag. subst upper lower. unfold limits in *.
        unfold flags, iqr_flags, iqr_mask in Hflag. rewrite HI in *.
        rewrite nth_error_map, Hi in Hflag. injection Hflag as Hflag.
        apply orb_false_elim in Hflag as [Hlo Hup].
        now apply clamp_within.
Qed.

(** On the scenario frame the IQR limits of x are 8.5 and -1.5: the cell
    100 becomes 8.5, the cell 3 stays, the other columns and the index
    stay. *)
Lemma compress_clamps_target_column_only_witness :
  let r := handle_outliers df_scenario (Name "x") "IQR" "compress" in
  snd r = Ok tt /\
  index (h_df (fst r)) = labels6 /\
  get_col (h_df (fst r)) "name" = get_col df_scenario "name" /\
  exists feature' : list float,
    get_col (h_df (fst r)) "x" = Some (NumCol feature') /\
    List.length feature' = 6%nat /\
    nth_error feature' 5 = Some 8.5 /\
    nth_error feature' 2 = Some 3.
Proof.
  assert (Hne : "x" <> all_the_columns) by discriminate.
  assert (Hname : "name" <> "x") by discriminate.
  destruct (compress_clamps_target_column_only df_scenario "x" "IQR"
              [1; 2; 3; 4; 5; 100] Hne eq_refl eq_refl)
    as (Hok & Hidx & Hother & feature' & Hcol & Hlen & Hcells).
  split; [exact Hok|]. split; [exact Hidx|].
  split; [exact (Hother "name" Hname)|].
  exists feature'. split; [exact Hcol|]. split; [exact Hlen|]. split.
  - destruct (Hcells 5%nat 100 eq_refl) as (v' & Hv' & _ & Hup & _).
    rewrite (Hup eq_refl eq_refl) in Hv'. exact Hv'.
  - destruct (Hcells 2%nat 3 eq_refl) as (v' & Hv' & _ & _ & _ & _ & Hflag).
    rewrite (Hflag eq_refl eq_refl) in Hv'. exact Hv'.
Defined.

(** ** C5: compressing twice *)

(** C5, as stated, fails.  On the column [0, 0, 0, 100] with the IQR
    method the first call clamps 100 to 62.5; the second call computes
    its limits from the clamped column (upper = 39.0625) and clamps
    again. *)
Lemma compress_twice_changes_again :
  let s1 := fst (handle_outliers df_skewed (Name "x") "IQR" "compress") in
  let r2 := handle_outliers (h_df s1) (Name "x") "IQR" "compress" in
  get_col (h_df s1) "x" = Some (NumCol [0; 0; 0; 62.5]) /\
  snd r2 = Ok tt /\
  get_col (h_df (fst r2)) "x" = Some (NumCol [0; 0; 0; 39.0625]) /\
  h_df (fst r2) <> h_df s1.
Proof.
  cbv zeta. repeat split; try (vm_compute; reflexivity).
  intros H.
  apply (f_equal (fun d => match get_col d "x" with
                           | Some (NumCol [_; _; _; v]) => v <? 50
                           | _ => false
                           end)) in H.
  vm_compute in H. discriminate.
Qed.

(** The same with the Z score: on ten zeros and 110 the first call
    clamps 110 to the upper limit, and the second call, whose limits
    come from the clamped column, clamps again. *)
Example compress_twice_changes_again_z :
  let s1 := fst (handle_outliers df_eleven (Name "x") "Z" "compress") in
  let r2 := handle_outliers (h_df s1) (Name "x") "Z" "compress" in
  snd r2 = Ok tt /\ h_df (fst r2) <> h_df s1.
Proof.
  cbv zeta. split; [vm_compute; reflexivity|].
  intros H.
  apply (f_equal (fun d => match get_col d "x" with
                           | Some (NumCol vs) => last vs 0 <? 100
                           | _ => false
                           end)) in H.
  vm_compute in H. discriminate.
Qed.

(** C5, amended.  Every call computes the limits anew from the column
    as it then is.  When the limits computed from the compressed column
    equal those of the first call, a second compress call with the same
    method on the same column succeeds and leaves the frame identical. *)
Theorem compress_twice_same_limits
  (df : DataFrame) (A meth : string) (feature : list float) :
  A <> all_the_columns ->
  recognised meth = true ->
  get_col df A = Some (NumCol feature) ->
  let upper := fst (limits meth feature) in
  let lower := snd (limits meth feature) in
  let compressed := map (clamp upper lower) feature in
  limits meth compressed = limits meth feature ->
  let r1 := handle_outliers df (Name A) meth "compress" in
  let r2 := handle_outliers (h_df (fst r1)) (Name A) meth "compress" in
  get_col (h_df (fst r1)) A = Some (NumCol compressed) /\
  snd r2 = Ok tt /\
  h_df (fst r2) = h_df (fst r1).
Proof.
  intros Hne Hrec Hget upper lower compressed Hlim r1 r2.
  assert (H1 : get_col (h_df (fst r1)) A = Some (NumCol compressed)).
  { subst r1. rewrite (compress_once _ _ _ _ Hne Hrec Hget).
    exact (get_col_set_col_same _ _ _ _ Hget). }
  split; [exact H1|].
  subst r2. rewrite (compress_once _ _ _ _ Hne Hrec H1).
  rewrite Hlim. fold upper lower. cbn [fst snd h_df].
  split; [reflexivity|].
  subst r1. rewrite (compress_once _ _ _ _ Hne Hrec Hget).
  cbn [fst h_df]. fold upper lower. fold compressed.
  unfold compressed at 2. rewrite map_map.
  rewrite (map_ext _ _ (clamp_idempotent upper lower)).
  fold compressed. apply set_col_same_cells.
Qed.

Lemma compress_twice_same_limits_witness :
  let r1 := handle_outliers df_scenario (Name "x") "IQR" "compress" in
  let r2 := handle_outliers (h_df (fst r1)) (Name "x") "IQR" "compress" in
  get_col (h_df (fst r1)) "x" = Some (NumCol [1; 2; 3; 4; 5; 8.5]) /\
  snd r2 = Ok tt /\
  h_df (fst r2) = h_df (fst r1).
Proof.
  assert (Hne : "x" <> all_the_columns) by discriminate.
  exact (compress_twice_same_limits df_scenario "x" "IQR"
           [1; 2; 3; 4; 5; 100] Hne eq_refl eq_refl eq_refl).
Defined.

(** ** The remove action, repeated *)

Lemma flags_statistics (meth : string) (feature : list float) :
  flags meth feature = map (flagged_by meth (statistics meth feature)) feature.
Proof.
  unfold flags, statistics, flagged_by, iqr_flags, iqr_mask, z_flags, z_mask,
    z_scores.
  destruct (method_is meth "IQR"); [reflexivity | now rewrite map_map].
Qed.

Lemma unselected_unflagged (f : float -> bool) (l : list float) :
  Forall (fun b => b = false) (map f (select (map negb (map f l)) l)).
Proof.
  induction l as [|a l IH]; simpl; [constructor|].
  destruct (f a) eqn:E; simpl; [exact IH|].
  constructor; assumption.
Qed.

Lemma select_none {A : Type} (mask : list bool) (l : list A) :
  Forall (fun b => b = false) mask -> select mask l = [].
Proof.
  revert l; induction mask as [|b mask IH]; intros [|a l] H; simpl;
    try reflexivity.
  inversion H; subst. now apply IH.
Qed.

Lemma select_length_eq {A B : Type} (mask : list bool) (l : list A) (l' : list B) :
  List.length l = List.length l' ->
  List.length (select mask l) = List.length (select mask l').
Proof.
  revert l l'; induction mask as [|b mask IH]; intros [|a l] [|a' l'] H;
    simpl in *; try reflexivity; try discriminate.
  injection H as H. destruct b; simpl; auto.
Qed.

Lemma col_length_select (mask : list bool) (c : column) (idx : list Z) :
  col_length c = List.length idx ->
  col_length (select_col mask c) = List.length (select mask idx).
Proof. destruct c; simpl; apply select_length_eq. Qed.

Lemma select_col_all (mask : list bool) (c : column) :
  Forall (fun b => b = true) mask ->
  (col_length c <= List.length mask)%nat ->
  select_col mask c = c.
Proof.
  intros Hall Hlen. destruct c; simpl in *; f_equal;
    now apply select_all_true.
Qed.

(** Dropping no label changes nothing in a frame whose columns are as
    long as its index. *)
Lemma drop_rows_nil (df : DataFrame) :
  Forall (fun nc => col_length (snd nc) = List.length (index df)) (columns df) ->
  drop_rows df [] = df.
Proof.
  destruct df as [idx cols]; unfold drop_rows, keep_mask; simpl. intros Hall.
  assert (Htrue : Forall (fun b => b = true) (map (fun _ : Z => true) idx)).
  { apply Forall_forall. intros b Hb. apply in_map_iff in Hb.
    now destruct Hb as (? & <- & _). }
  f_equal.
  - apply select_all_true; [exact Htrue | now rewrite length_map].
  - rewrite <- (map_id cols) at 2. apply map_ext_in. intros [n c] Hin.
    simpl. f_equal. apply select_col_all; [exact Htrue|].
    rewrite Forall_forall in Hall. specialize (Hall _ Hin). simpl in Hall.
    rewrite length_map. lia.
Qed.

Lemma drop_rows_columns_length (df : DataFrame) (labels : list Z) :
  Forall (fun nc => col_length (snd nc) = List.length (index df)) (columns df) ->
  Forall (fun nc => col_length (snd nc)
                    = List.length (index (drop_rows df labels)))
         (columns (drop_rows df labels)).
Proof.
  intros Hall. unfold drop_rows; simpl. apply Forall_forall.
  intros nc Hin. apply in_map_iff in Hin as ([n c] & <- & Hin). simpl.
  rewrite Forall_forall in Hall. specialize (Hall _ Hin). simpl in Hall.
  now apply col_length_select.
Qed.

(** ** C6: removing twice *)

(** C6, as stated, fails.  On the column [0, 0, 0, 0, 1, 10] with the
    IQR method the first call removes the row holding 10 (limits -1.125
    and 1.875); the second call computes the limits of the five rows
    left (both 0) and removes the row holding 1. *)
Lemma remove_twice_removes_again :
  let s1 := fst (handle_outliers df_tail (Name "x") "IQR" "remove") in
  let r2 := handle_outliers (h_df s1) (Name "x") "IQR" "remove" in
  h_df s1 = mkDF [0; 1; 2; 3; 4]%Z [("x", NumCol [0; 0; 0; 0; 1])] /\
  snd r2 = Ok tt /\
  h_out (fst r2)
  = [PrintRemoved (IQRSeries (mkSeries [4%Z] [1])); PrintSeparator] /\
  h_df (fst r2) = mkDF [0; 1; 2; 3]%Z [("x", NumCol [0; 0; 0; 0])] /\
  List.length (index (h_df (fst r2))) <> List.length (index (h_df s1)).
Proof.
  cbv zeta. repeat split; try (vm_compute; reflexivity).
  vm_compute. discriminate.
Qed.

(** The same with the Z score: on twenty zeros, 1 and 1000 the first
    call removes the row holding 1000 only, and among the rows left the
    row holding 1 has a score above 3. *)
Example remove_twice_removes_again_z :
  let s1 := fst (handle_outliers df_long (Name "x") "Z" "remove") in
  let r2 := handle_outliers (h_df s1) (Name "x") "Z" "remove" in
  List.length (index (h_df s1)) = 21%nat /\
  snd r2 = Ok tt /\
  List.length (index (h_df (fst r2))) = 20%nat.
Proof. cbv zeta. repeat split; vm_compute; reflexivity. Qed.

(** C6, amended.  Every call computes its statistics anew from the rows
    that are left.  In a frame with one label per row, when the
    statistics of the rows left by a first remove call (the limits for
    the IQR, mean and standard deviation for the Z score) equal those of
    the first call, a second remove call with the same method on the
    same column finds no outlier and leaves the frame identical. *)
Theorem remove_twice_same_statistics
  (df : DataFrame) (A meth : string) (feature : list float) :
  well_formed df ->
  A <> all_the_columns ->
  recognised meth = true ->
  get_col df A = Some (NumCol feature) ->
  let remaining := select (map negb (flags meth feature)) feature in
  statistics meth remaining = statistics meth feature ->
  let r1 := handle_outliers df (Name A) meth "remove" in
  let r2 := handle_outliers (h_df (fst r1)) (Name A) meth "remove" in
  get_col (h_df (fst r1)) A = Some (NumCol remaining) /\
  snd r2 = Ok tt /\
  (exists o : outliers,
     h_out (fst r2) = [PrintRemoved o; PrintSeparator] /\
     outliers_index o = []) /\
  h_df (fst r2) = h_df (fst r1).
Proof.
  intros Hwf Hne Hrec Hget remaining Hstat r1 r2.
  assert (Hkeep : keep_mask (select (flags meth feature) (index df)) (index df)
                  = map negb (flags meth feature)).
  { apply keep_mask_select; [apply Hwf|]. rewrite flags_length.
    exact (well_formed_length _ _ _ Hwf Hget). }
  assert (H1 : get_col (h_df (fst r1)) A = Some (NumCol remaining)).
  { subst r1. rewrite (remove_once _ _ _ _ Hne Hrec Hget). cbn [fst h_df].
    now rewrite get_col_drop_rows, Hget, Hkeep. }
  assert (Hnone : Forall (fun b => b = false) (flags meth remaining)).
  { rewrite flags_statistics, Hstat. unfold remaining.
    rewrite (flags_statistics meth feature). apply unselected_unflagged. }
  split; [exact H1|].
  subst r2. rewrite (remove_once _ _ _ _ Hne Hrec H1). cbn [fst snd h_df h_out].
  rewrite (select_none _ _ Hnone).
  split; [reflexivity|]. split.
  - eexists. split; [reflexivity|].
    rewrite records_index. now apply select_none.
  - apply drop_rows_nil. subst r1.
    rewrite (remove_once _ _ _ _ Hne Hrec Hget). cbn [fst h_df].
    apply drop_rows_columns_length, Hwf.
Qed.

Lemma remove_twice_same_statistics_witness :
  let r1 := handle_outliers df_flat (Name "x") "IQR" "remove" in
  let r2 := handle_outliers (h_df (fst r1)) (Name "x") "IQR" "remove" in
  get_col (h_df (fst r1)) "x" = Some (NumCol [0; 0; 0; 0; 0; 0]) /\
  snd r2 = Ok tt /\
  h_df (fst r2) = h_df (fst r1).
Proof.
  assert (Hwf : well_formed df_flat).
  { unfold well_formed, df_flat; simpl. repeat split.
    - repeat constructor; simpl; intuition discriminate.
    - repeat constructor; simpl; intuition discriminate.
    - repeat constructor. }
  assert (Hne : "x" <> all_the_columns) by discriminate.
  destruct (remove_twice_same_statistics df_flat "x" "IQR"
              [0; 0; 0; 0; 0; 0; 10] Hwf Hne eq_refl eq_refl eq_refl)
    as (H1 & Hok & _ & Hsame).
  split; [exact H1|]. split; [exact Hok | exact Hsame].
Defined.

(** ** C7: a column without spread *)

Lemma nan_is_not_zero : nan <> 0.
Proof.
  intros H. apply (f_equal PrimFloat.is_nan) in H. vm_compute in H.
  discriminate.
Qed.

Lemma dropna_all_missing (feature : list float) :
  Forall (fun v => PrimFloat.is_nan v = true) feature ->
  Num.dropna feature = [].
Proof.
  unfold Num.dropna. induction 1 as [|v l Hv _ IH]; simpl; [reflexivity|].
  now rewrite Hv.
Qed.

(** A zero standard deviation at the mean excludes a missing mean. *)
Lemma mean_present (feature : list float) :
  Num.np_std feature = 0 ->
  Forall (fun v => v = Num.np_mean feature) feature ->
  PrimFloat.is_nan (Num.np_mean feature) = false.
Proof.
  intros Hstd Hall.
  destruct (PrimFloat.is_nan (Num.np_mean feature)) eqn:E; [|reflexivity].
  exfalso. apply nan_is_not_zero. rewrite <- Hstd.
  unfold Num.np_std, Num.nanstd.
  rewrite dropna_all_missing; [reflexivity|].
  eapply Forall_impl; [|exact Hall]. simpl. intros v ->. exact E.
Qed.

(** C7, as stated, fails.  The three cells of the column are the same
    number (0.1 scaled by 2^-600); their rounded mean is one unit in the
    last place above it, the squared deviations underflow to 0, the
    standard deviation is 0, and the division of the non-zero deviation
    by 0 gives the score -infinity, whose absolute value exceeds 3:
    every row is flagged. *)
Lemma zero_spread_rows_flagged :
  Num.np_std [tiny; tiny; tiny] = 0 /\
  outliers_z_score df_tiny (Name "x") "return"
  = ([], Ok (Some (Num.np_mean [tiny; tiny; tiny],
                   Num.np_mean [tiny; tiny; tiny],
                   ZFrame [0; 1; 2]%Z [tiny; tiny; tiny]
                          [neg_infinity; neg_infinity; neg_infinity]))) /\
  Num.np_mean [tiny; tiny; tiny] <> tiny.
Proof.
  repeat split; try (vm_compute; reflexivity).
  intros H. apply (f_equal (fun m => tiny <? m)) in H.
  vm_compute in H. discriminate.
Qed.

(** C7, amended.  On a numeric column [outliers_z_score] raises
    nothing, whatever the spread.  When the computed standard deviation
    is 0 and every value equals the computed mean (as in
    [10, 10, 10, 10, 10]), the limits returned are lower = mean and
    upper = mean (as numbers) and no row is flagged: the scores are
    0/0, not a number, and exceed nothing. *)
Theorem zero_spread_at_the_mean
  (df : DataFrame) (columns : selector) (column : string)
  (rest : list string) (feature : list float) :
  normalize df columns = column :: rest ->
  get_col df column = Some (NumCol feature) ->
  exists (upper lower : float) (o : outliers),
    outliers_z_score df columns "return" = ([], Ok (Some (upper, lower, o))) /\
    (Num.np_std feature = 0 ->
     Forall (fun v => v = Num.np_mean feature) feature ->
     lower = Num.np_mean feature /\
     (upper =? Num.np_mean feature) = true /\
     o = ZFrame [] [] []).
Proof.
  intros Hnorm Hget.
  unfold outliers_z_score. rewrite Hnorm. simpl.
  unfold z_score_calc. rewrite Hget. simpl.
  do 3 eexists. split; [reflexivity|].
  intros Hstd Hall. pose proof (mean_present _ Hstd Hall) as Hm.
  rewrite Hstd.
  change (-3 * 0) with (-0). change (3 * 0) with 0.
  split; [apply FloatFacts.neg_zero_add|].
  split; [now apply FloatFacts.zero_add_eqb|].
  assert (Hnone : Forall (fun b => b = false)
                    (z_mask (z_scores (Num.np_mean feature) 0 feature))).
  { unfold z_mask, z_scores. rewrite map_map. apply Forall_forall.
    intros b Hb. apply in_map_iff in Hb as (v & <- & Hv).
    rewrite Forall_forall in Hall. rewrite (Hall _ Hv) at 1.
    apply FloatFacts.diag_score_not_flagged. }
  now rewrite !(select_none _ _ Hnone).
Qed.

Lemma zero_spread_at_the_mean_witness :
  exists (upper lower : float) (o : outliers),
    outliers_z_score df_constant (Name "x") "return"
    = ([], Ok (Some (upper, lower, o))) /\
    lower = 10 /\ (upper =? 10) = true /\ o = ZFrame [] [] [].
Proof.
  destruct (zero_spread_at_the_mean df_constant (Name "x") "x" []
              [10; 10; 10; 10; 10] eq_refl eq_refl)
    as (upper & lower & o & Hrun & Hzero).
  exists upper, lower, o. split; [exact Hrun|].
  apply (Hzero eq_refl). repeat constructor.
Defined.

(** ** C8: unrecognised method or action *)

Lemma after_detect_no_action (action column : string) (s : hstate) :
  String.eqb action "remove" = false ->
  String.eqb action "compress" = false ->
  after_detect action column s = emit PrintSeparator s.
Proof.
  intros Hr Hc. unfold after_detect. rewrite Hr, Hc.
  unfold seq, when, skip. reflexivity.
Qed.

(** With an action that is neither 'remove' nor 'compress' the loop
    only prints its separator lines. *)
Lemma loop_no_action (meth action : string) (cols : list string)
  (df : DataFrame) :
  String.eqb action "remove" = false ->
  String.eqb action "compress" = false ->
  recognised meth = false \/
  Forall (fun c => c <> all_the_columns /\
                   exists feature, get_col df c = Some (NumCol feature)) cols ->
  forall (loc : option triple) (out : list event),
  exists loc' : option triple,
    handle_loop meth action cols (mkH df loc out)
    = (mkH df loc' (out ++ repeat PrintSeparator (List.length cols)), Ok tt).
Proof.
  intros Hr Hc Hcols.
  induction cols as [|c cols IH]; intros loc out; simpl.
  - exists loc. unfold skip. now rewrite app_nil_r.
  - assert (Hstep : exists loc1,
               handle_column meth action c (mkH df loc out)
               = (mkH df loc1 (out ++ [PrintSeparator]), Ok tt)).
    { destruct (recognised meth) eqn:Hrec.
      - destruct Hcols as [Hcols|Hcols]; [discriminate|].
        inversion Hcols as [|? ? (Hne & feature & Hget) _]; subst.
        rewrite (handle_column_recognised _ _ _ _ _ _ _ Hrec Hne Hget).
        rewrite (after_detect_no_action _ _ _ Hr Hc). eexists. reflexivity.
      - rewrite (handle_column_unrecognised _ _ _ _ Hrec).
        rewrite (after_detect_no_action _ _ _ Hr Hc). eexists. reflexivity. }
    destruct Hstep as (loc1 & Hstep). unfold seq. rewrite Hstep.
    destruct (IH (match Hcols with
                  | or_introl H => or_introl H
                  | or_intror H => or_intror (Forall_inv_tail H)
                  end) loc1 (out ++ [PrintSeparator])) as (loc' & ->).
    exists loc'. now rewrite <- app_assoc.
Qed.

(** C8, as stated, fails.  A method token that is neither 'Z' nor 'IQR'
    binds none of [upper], [lower], [outliers]; the action then reads
    an unbound local and the call raises. *)
Lemma unrecognised_method_raises :
  recognised "range" = false /\
  handle_outliers df_scenario (Name "x") "range" "compress"
  = (mkH df_scenario None [], Raise (UnboundLocalError "upper")) /\
  handle_outliers df_scenario (Name "x") "range" "remove"
  = (mkH df_scenario None [], Raise (UnboundLocalError "outliers")).
Proof. repeat split. Qed.

(** C8, amended.  With an action that is neither 'remove' nor
    'compress' [handle_outliers] raises nothing, leaves the frame as it
    was and prints one separator line per column and no outlier report
    (when the method is recognised the limits are still computed, so the
    columns are taken to be numeric columns of the frame).  With a method
    that is neither 'Z' nor 'IQR' and the action 'remove' or 'compress',
    the call raises an unbound-local error at the first column, before
    any change to the frame and before printing. *)
Theorem unrecognised_tokens
  (df : DataFrame) (columns : selector) (meth action : string) :
  let cols := match columns with Name s => [s] | Names l => l end in
  let r := handle_outliers df columns meth action in
  (String.eqb action "remove" = false ->
   String.eqb action "compress" = false ->
   recognised meth = false \/
   Forall (fun c => c <> all_the_columns /\
                    exists feature, get_col df c = Some (NumCol feature)) cols ->
   snd r = Ok tt /\ h_df (fst r) = df /\
   h_out (fst r) = repeat PrintSeparator (List.length cols))
  /\
  (recognised meth = false -> cols <> [] ->
   (action = "remove" ->
    r = (mkH df None [], Raise (UnboundLocalError "outliers"))) /\
   (action = "compress" ->
    r = (mkH df None [], Raise (UnboundLocalError "upper")))).
Proof.
  intros cols r. split.
  - intros Hr Hc Hcols.
    destruct (loop_no_action meth action cols df Hr Hc Hcols None [])
      as (loc' & Hrun).
    subst r. unfold handle_outliers. fold cols. rewrite Hrun. auto.
  - intros Hrec Hcols.
    subst r. unfold handle_outliers. fold cols.
    destruct cols as [|c rest]; [contradiction|]. simpl handle_loop.
    split; intros ->; unfold seq at 1;
      rewrite (handle_column_unrecognised _ _ _ _ Hrec); reflexivity.
Qed.

Lemma unrecognised_tokens_witness :
  (snd (handle_outliers df_scenario (Names ["x"; "name"]) "range" "clip")
   = Ok tt /\
   h_df (fst (handle_outliers df_scenario (Names ["x"; "name"]) "range" "clip"))
   = df_scenario /\
   h_out (fst (handle_outliers df_scenario (Names ["x"; "name"]) "range" "clip"))
   = [PrintSeparator; PrintSeparator]) /\
  handle_outliers df_scenario (Names ["x"; "name"]) "range" "remove"
  = (mkH df_scenario None [], Raise (UnboundLocalError "outliers")).
Proof.
  split.
  - exact (proj1 (unrecognised_tokens df_scenario (Names ["x"; "name"])
                    "range" "clip")
             eq_refl eq_refl (or_introl eq_refl)).
  - assert (Hcols : ["x"; "name"] <> @nil string) by discriminate.
    exact (proj1 (proj2 (unrecognised_tokens df_scenario
                           (Names ["x"; "name"]) "range" "remove")
                    eq_refl Hcols) eq_refl).
Defined.

(** ** C9: return mode with several columns *)

(** C9, as stated, fails.  With the two columns a and b selected, a
    call in return mode hands back one triple, that of a; the triple of
    b (limits -1.125 and 1.875 for the IQR) is not computed. *)
Lemma return_mode_one_triple :
  returned (outliers_IQR df_two (Names ["a"; "b"]) "return")
  = [(8.5, -1.5, IQRSeries (mkSeries [5%Z] [100]))] /\
  returned (outliers_IQR df_two (Names ["b"]) "return")
  = [(1.875, -1.125, IQRSeries (mkSeries [5%Z] [10]))] /\
  List.length (returned (outliers_IQR df_two (Names ["a"; "b"]) "return"))
  <> List.length ["a"; "b"] /\
  List.length (returned (outliers_z_score df_two (Names ["a"; "b"]) "return"))
  <> List.length ["a"; "b"].
Proof.
  repeat split; try (vm_compute; reflexivity); vm_compute; discriminate.
Qed.

(** C9, amended.  In return mode [outliers_z_score] and [outliers_IQR]
    return from inside the loop at its first iteration: whatever columns
    follow the first selected one, the result is that of the first
    column alone (a single triple, or the error it raises), and no call
    hands back more than one triple. *)
Theorem return_mode_first_column
  (df : DataFrame) (column : string) (rest : list string) :
  outliers_z_score df (Names (column :: rest)) "return"
  = outliers_z_score df (Names [column]) "return" /\
  outliers_IQR df (Names (column :: rest)) "return"
  = outliers_IQR df (Names [column]) "return" /\
  forall (columns : selector) (mode : string),
    (List.length (returned (outliers_z_score df columns mode)) <= 1)%nat /\
    (List.length (returned (outliers_IQR df columns mode)) <= 1)%nat.
Proof.
  repeat split.
  - unfold returned. destruct (snd _) as [[t|]|]; simpl; lia.
  - unfold returned. destruct (snd _) as [[t|]|]; simpl; lia.
Qed.

(** ** C10: the selector of handle_outliers *)

(** C10, as stated, fails for the sentinel.  [handle_outliers] hands the
    str 'all_the_columns' on to the detector, which takes it for every
    column and returns the triple of the first one: with the action
    'remove' the rows flagged in the first column are dropped and no
    lookup error is raised, although no column has that name. *)
Lemma sentinel_reaches_first_column :
  get_col df_scenario all_the_columns = None /\
  handle_outliers df_scenario (Name all_the_columns) "IQR" "remove"
  = (mkH (mkDF [0; 1; 2; 3; 4]%Z
               [ ("x", NumCol [1; 2; 3; 4; 5]);
                 ("name", ObjCol ["a"; "b"; "c"; "d"; "e"]) ])
         (Some (8.5, -1.5, IQRSeries (mkSeries [5%Z] [100])))
         [PrintRemoved (IQRSeries (mkSeries [5%Z] [100])); PrintSeparator],
     Ok tt).
Proof. split; vm_compute; reflexivity. Qed.

(** C10, amended.  [handle_outliers] does no normalisation of its own:
    a str is the list of that one name, while [five_point_summary],
    [outliers_z_score] and [outliers_IQR] read the sentinel as the list
    of all columns.  For a str other than the sentinel that names no
    column, and a recognised method, the call fails with the lookup
    error for that name, the frame untouched and nothing printed. *)
Theorem handle_outliers_literal_name
  (df : DataFrame) (s meth action mode : string) :
  handle_outliers df (Name s) meth action
  = handle_outliers df (Names [s]) meth action /\
  five_point_summary df (Name all_the_columns)
  = five_point_summary df (Names (column_names df)) /\
  outliers_z_score df (Name all_the_columns) mode
  = outliers_z_score df (Names (column_names df)) mode /\
  outliers_IQR df (Name all_the_columns) mode
  = outliers_IQR df (Names (column_names df)) mode /\
  (s <> all_the_columns ->
   get_col df s = None ->
   recognised meth = true ->
   handle_outliers df (Name s) meth action
   = (mkH df None [], Raise (KeyError s))).
Proof.
  repeat split.
  intros Hne Hget Hrec.
  unfold handle_outliers. simpl handle_loop. unfold seq at 1, handle_column.
  unfold recognised in Hrec. unfold seq at 1.
  destruct (method_is meth "IQR") eqn:EI.
  - unfold when, detect, outliers_IQR. cbn [h_df].
    rewrite (normalize_name _ _ Hne). simpl. unfold iqr_calc.
    rewrite Hget. reflexivity.
  - simpl in Hrec. rewrite Hrec. unfold when at 1, skip at 1.
    unfold seq at 1. unfold when, detect, outliers_z_score. cbn [h_df].
    rewrite (normalize_name _ _ Hne). simpl. unfold z_score_calc.
    rewrite Hget. reflexivity.
Qed.

Lemma handle_outliers_literal_name_witness :
  handle_outliers df_scenario (Name "price") "Z" "compress"
  = (mkH df_scenario None [], Raise (KeyError "price")).
Proof.
  assert (Hne : "price" <> all_the_columns) by discriminate.
  exact (proj2 (proj2 (proj2 (proj2
           (handle_outliers_literal_name df_scenario "price" "Z" "compress"
              "return")))) Hne eq_refl eq_refl).
Defined.


(** * Further properties of the module *)

(** ** The loops of the printing functions *)

Lemma print_report_lines (column method : string) (t : triple) :
  print_report column method t = (report_lines column method t, Ok tt).
Proof.
  destruct t as [[upper lower] o]. unfold print_report, report_lines. simpl.
  destruct (Nat.eqb (outliers_count o) 0); reflexivity.
Qed.

Lemma wbind_lines {A : Type} (lines : list event) (k : W A) :
  wbind (lines, Ok tt) (fun _ => k) = (lines ++ fst k, snd k).
Proof. destruct k. reflexivity. Qed.

(** Columns that are fine are reported one after the other, and the
    loop goes on with the columns after them. *)
Lemma z_score_loop_app (df : DataFrame) (mode : string)
  (pre rest : list string) :
  String.eqb mode "return" = false ->
  Forall (numeric_in df) pre ->
  z_score_loop df mode (pre ++ rest)
  = (flat_map (z_report df) pre ++ fst (z_score_loop df mode rest),
     snd (z_score_loop df mode rest)).
Proof.
  intros Hmode Hpre. induction Hpre as [|c pre (feature & Hc) _ IH]; simpl.
  - now destruct (z_score_loop df mode rest).
  - unfold z_score_calc, z_report. rewrite Hc, Hmode.
    cbn [wbind wret]. rewrite print_report_lines, wbind_lines, IH.
    cbn [fst snd app]. now rewrite <- app_assoc.
Qed.

Lemma iqr_loop_app (df : DataFrame) (mode : string)
  (pre rest : list string) :
  String.eqb mode "return" = false ->
  Forall (numeric_in df) pre ->
  iqr_loop df mode (pre ++ rest)
  = (flat_map (iqr_report df) pre ++ fst (iqr_loop df mode rest),
     snd (iqr_loop df mode rest)).
Proof.
  intros Hmode Hpre. induction Hpre as [|c pre (feature & Hc) _ IH]; simpl.
  - now destruct (iqr_loop df mode rest).
  - unfold iqr_calc, iqr_report. rewrite Hc, describe_quartiles, Hmode.
    cbn [wbind wret]. rewrite print_report_lines, wbind_lines, IH.
    cbn [fst snd app]. now rewrite <- app_assoc.
Qed.

Lemma five_point_loop_app (df : DataFrame) (pre rest : list string) :
  Forall (fun c => get_col df c <> None) pre ->
  five_point_loop df (pre ++ rest)
  = (flat_map (summary_lines df) pre ++ fst (five_point_loop df rest),
     snd (five_point_loop df rest)).
Proof.
  intros Hpre. induction Hpre as [|c pre Hc _ IH]; simpl.
  - now destruct (five_point_loop df rest).
  - unfold summary_lines. destruct (get_col df c) as [col|]; [|contradiction].
    rewrite IH. reflexivity.
Qed.

(** X1.  In print mode (any mode other than 'return') the two
    detectors go through every selected column: when all of them are
    numeric columns of the frame, the call prints the report of each
    column, in the order given, and hands back None. *)
Theorem print_mode_reports_every_column
  (df : DataFrame) (cols : list string) (mode : string) :
  String.eqb mode "return" = false ->
  Forall (numeric_in df) cols ->
  outliers_z_score df (Names cols) mode = (flat_map (z_report df) cols, Ok None)
  /\
  outliers_IQR df (Names cols) mode = (flat_map (iqr_report df) cols, Ok None).
Proof.
  intros Hmode Hcols. unfold outliers_z_score, outliers_IQR, normalize.
  rewrite <- (app_nil_r cols) at 1 3.
  rewrite (z_score_loop_app _ _ _ _ Hmode Hcols).
  rewrite (iqr_loop_app _ _ _ _ Hmode Hcols).
  simpl. now rewrite !app_nil_r.
Qed.

Lemma print_mode_reports_every_column_witness :
  outliers_IQR df_two (Names ["a"; "b"]) "print"
  = ([PrintTitle "a" "IQR"; PrintLimits (-1.5) 8.5; PrintBlank; PrintTotal 1;
      PrintOutliers (IQRSeries (mkSeries [5%Z] [100])); PrintRule;
      PrintTitle "b" "IQR"; PrintLimits (-1.125) 1.875; PrintBlank;
      PrintTotal 1;
      PrintOutliers (IQRSeries (mkSeries [5%Z] [10])); PrintRule],
     Ok None).
Proof.
  assert (Hcols : Forall (numeric_in df_two) ["a"; "b"]).
  { repeat constructor; eexists; reflexivity. }
  exact (proj2 (print_mode_reports_every_column df_two ["a"; "b"] "print"
                  eq_refl Hcols)).
Defined.

(** X2.  A selected name that is no column of the frame stops a
    detector in print mode with the lookup error for that name: the
    reports of the columns before it have been printed, nothing is
    printed for it or for the columns after it. *)
Theorem missing_column_stops_detector
  (df : DataFrame) (pre post : list string) (c mode : string) :
  String.eqb mode "return" = false ->
  Forall (numeric_in df) pre ->
  get_col df c = None ->
  outliers_z_score df (Names (pre ++ c :: post)) mode
  = (flat_map (z_report df) pre, Raise (KeyError c))
  /\
  outliers_IQR df (Names (pre ++ c :: post)) mode
  = (flat_map (iqr_report df) pre, Raise (KeyError c)).
Proof.
  intros Hmode Hpre Hc. unfold outliers_z_score, outliers_IQR, normalize.
  rewrite (z_score_loop_app _ _ _ _ Hmode Hpre).
  rewrite (iqr_loop_app _ _ _ _ Hmode Hpre).
  simpl. unfold z_score_calc, iqr_calc. rewrite Hc. simpl.
  now rewrite !app_nil_r.
Qed.

Lemma missing_column_stops_detector_witness :
  outliers_IQR df_two (Names ["a"; "price"; "b"]) "print"
  = ([PrintTitle "a" "IQR"; PrintLimits (-1.5) 8.5; PrintBlank; PrintTotal 1;
      PrintOutliers (IQRSeries (mkSeries [5%Z] [100])); PrintRule],
     Raise (KeyError "price")).
Proof.
  assert (Hpre : Forall (numeric_in df_two) ["a"]).
  { repeat constructor; eexists; reflexivity. }
  exact (proj2 (missing_column_stops_detector df_two ["a"] ["b"] "price"
                  "print" eq_refl Hpre eq_refl)).
Defined.

(** X3.  [five_point_summary] prints title, summary and rule for every
    selected column of the frame, numeric or not, and hands back None.
    At a name that is no column it has already printed the title line
    for that name when the lookup fails. *)
Theorem five_point_summary_lines
  (df : DataFrame) (pre post : list string) (c : string) :
  Forall (fun c => get_col df c <> None) pre ->
  five_point_summary df (Names pre)
  = (flat_map (summary_lines df) pre, Ok tt)
  /\
  (get_col df c = None ->
   five_point_summary df (Names (pre ++ c :: post))
   = (flat_map (summary_lines df) pre ++ [PrintSummaryTitle c],
      Raise (KeyError c))).
Proof.
  intros Hpre. unfold five_point_summary, normalize. split.
  - rewrite <- (app_nil_r pre) at 1.
    rewrite (five_point_loop_app _ _ _ Hpre). simpl. now rewrite app_nil_r.
  - intros Hc. rewrite (five_point_loop_app _ _ _ Hpre). simpl.
    rewrite Hc. reflexivity.
Qed.

Lemma five_point_summary_lines_witness :
  five_point_summary df_scenario (Names ["name"; "price"; "x"])
  = ([PrintSummaryTitle "name"; PrintSummary (ObjSummary (Some 1%nat));
      PrintRule; PrintSummaryTitle "price"],
     Raise (KeyError "price")).
Proof.
  assert (Hpre : Forall (fun c => get_col df_scenario c <> None) ["name"]).
  { repeat constructor. discriminate. }
  exact (proj2 (five_point_summary_lines df_scenario ["name"] ["x"] "price"
                  Hpre) eq_refl).
Defined.

(** ** Missing values *)

Module NanFacts.

Lemma SFeqb_refl_nan (s : spec_float) : SFeqb s s = false -> s = S754_nan.
Proof.
  unfold SFeqb. destruct s as [[]|[]| |[] m e]; simpl; try discriminate;
    try reflexivity;
    rewrite Z.compare_refl, Pos.compare_cont_refl; discriminate.
Qed.

Lemma is_nan_spec (v : float) :
  PrimFloat.is_nan v = true -> Prim2SF v = S754_nan.
Proof.
  unfold PrimFloat.is_nan. rewrite FloatAxioms.eqb_spec. intros H.
  apply SFeqb_refl_nan. now destruct (SFeqb (Prim2SF v) (Prim2SF v)).
Qed.

Lemma ltb_nan_l (v x : float) : PrimFloat.is_nan v = true -> (v <? x) = false.
Proof. intros H. rewrite ltb_spec, (is_nan_spec _ H). reflexivity. Qed.

Lemma ltb_nan_r (v x : float) : PrimFloat.is_nan v = true -> (x <? v) = false.
Proof.
  intros H. rewrite ltb_spec, (is_nan_spec _ H).
  unfold SFltb. now destruct (Prim2SF x).
Qed.

(** The score of a missing value is missing, and exceeds nothing. *)
Lemma score_nan (v mean stdev : float) :
  PrimFloat.is_nan v = true -> (3 <? abs ((v - mean) / stdev)) = false.
Proof.
  intros H. rewrite ltb_spec, abs_spec, div_spec, sub_spec, (is_nan_spec _ H).
  reflexivity.
Qed.

End NanFacts.

Lemma flagged_by_missing (meth : string) (st : float * float) (v : float) :
  PrimFloat.is_nan v = true -> flagged_by meth st v = false.
Proof.
  intros H. unfold flagged_by. destruct (method_is meth "IQR").
  - now rewrite (NanFacts.ltb_nan_l _ _ H), (NanFacts.ltb_nan_r _ _ H).
  - now apply NanFacts.score_nan.
Qed.

Lemma flags_missing (meth : string) (feature : list float) (i : nat) (v : float) :
  nth_error feature i = Some v ->
  PrimFloat.is_nan v = true ->
  nth_error (flags meth feature) i = Some false.
Proof.
  intros Hi Hv. rewrite flags_statistics, nth_error_map, Hi. simpl.
  now rewrite flagged_by_missing.
Qed.

Lemma select_flagged_present (p : float -> bool) (feature : list float) :
  (forall v, PrimFloat.is_nan v = true -> p v = false) ->
  Forall (fun v => PrimFloat.is_nan v = false) (select (map p feature) feature).
Proof.
  intros Hp. induction feature as [|v feature IH]; simpl; [constructor|].
  destruct (p v) eqn:E; [|exact IH]. constructor; [|exact IH].
  destruct (PrimFloat.is_nan v) eqn:En; [|reflexivity].
  rewrite (Hp _ En) in E. discriminate.
Qed.

Lemma records_values (meth : string) (idx : list Z) (feature : list float) :
  outliers_values (records meth idx feature)
  = select (flags meth feature) feature.
Proof. unfold records, flags. destruct (method_is meth "IQR"); reflexivity. Qed.

Lemma records_present (meth : string) (idx : list Z) (feature : list float) :
  Forall (fun v => PrimFloat.is_nan v = false)
         (outliers_values (records meth idx feature)).
Proof.
  rewrite records_values, flags_statistics.
  apply select_flagged_present. intros v. apply flagged_by_missing.
Qed.

Lemma clamp_missing (upper lower v : float) :
  PrimFloat.is_nan v = true -> clamp upper lower v = v.
Proof.
  intros H. unfold clamp.
  now rewrite (NanFacts.ltb_nan_r _ _ H), (NanFacts.ltb_nan_l _ _ H).
Qed.

Lemma select_kept {A : Type} (mask : list bool) (l : list A) (i : nat) (x : A) :
  nth_error mask i = Some true -> nth_error l i = Some x ->
  In x (select mask l).
Proof.
  revert l i. induction mask as [|b mask IH]; intros [|a l] [|i] Hm Hl;
    simpl in *; try discriminate.
  - injection Hm as ->. injection Hl as ->. now left.
  - destruct b; [right|]; eapply IH; eassumption.
Qed.

(** X4.  Neither detector ever reports a missing value: on a numeric
    column, selected first, both succeed in return mode and every value
    among the outliers they return is a number.  A missing value
    compares false with both limits, and its score is missing. *)
Theorem detectors_never_report_missing_values
  (df : DataFrame) (columns : selector) (column : string)
  (rest : list string) (feature : list float) :
  normalize df columns = column :: rest ->
  get_col df column = Some (NumCol feature) ->
  exists tz ti : triple,
    outliers_z_score df columns "return" = ([], Ok (Some tz)) /\
    outliers_IQR df columns "return" = ([], Ok (Some ti)) /\
    Forall (fun v => PrimFloat.is_nan v = false) (outliers_values (snd tz)) /\
    Forall (fun v => PrimFloat.is_nan v = false) (outliers_values (snd ti)).
Proof.
  intros Hnorm Hget.
  exists (z_limits feature, records "Z" (index df) feature),
         (iqr_limits feature, records "IQR" (index df) feature).
  unfold outliers_z_score, outliers_IQR. rewrite Hnorm. simpl.
  unfold z_score_calc, iqr_calc. rewrite Hget.
  split; [reflexivity|]. split; [reflexivity|]. split.
  - exact (records_present "Z" (index df) feature).
  - exact (records_present "IQR" (index df) feature).
Qed.

Lemma detectors_never_report_missing_values_witness :
  exists tz ti : triple,
    outliers_z_score df_missing (Name "y") "return" = ([], Ok (Some tz)) /\
    outliers_IQR df_missing (Name "y") "return" = ([], Ok (Some ti)) /\
    Forall (fun v => PrimFloat.is_nan v = false) (outliers_values (snd tz)) /\
    Forall (fun v => PrimFloat.is_nan v = false) (outliers_values (snd ti)).
Proof.
  exact (detectors_never_report_missing_values df_missing (Name "y") "y" []
           [1; nan; 3] eq_refl eq_refl).
Defined.

(** X5.  [handle_outliers] leaves missing cells alone.  With a
    recognised method on a numeric column A (not the sentinel), the
    action 'compress' leaves every missing cell of A missing, and, in a
    frame with one label per row, the action 'remove' keeps every row
    whose cell in A is missing. *)
Theorem handle_outliers_keeps_missing_cells
  (df : DataFrame) (A meth : string) (feature : list float)
  (i : nat) (v : float) :
  A <> all_the_columns ->
  recognised meth = true ->
  get_col df A = Some (NumCol feature) ->
  nth_error feature i = Some v ->
  PrimFloat.is_nan v = true ->
  (exists feature' : list float,
     get_col (h_df (fst (handle_outliers df (Name A) meth "compress"))) A
     = Some (NumCol feature') /\
     nth_error feature' i = Some v)
  /\
  (well_formed df ->
   forall l : Z,
     nth_error (index df) i = Some l ->
     In l (index (h_df (fst (handle_outliers df (Name A) meth "remove"))))).
Proof.
  intros Hne Hrec Hget Hi Hv. split.
  - rewrite (compress_once _ _ _ _ Hne Hrec Hget). cbn [fst h_df].
    eexists. split; [exact (get_col_set_col_same _ _ _ _ Hget)|].
    rewrite nth_error_map, Hi. simpl. now rewrite clamp_missing.
  - intros Hwf l Hl.
    rewrite (remove_once _ _ _ _ Hne Hrec Hget). cbn [fst h_df].
    unfold drop_rows. cbn [index].
    rewrite keep_mask_select; [|apply Hwf|].
    + eapply select_kept; [|exact Hl].
      rewrite nth_error_map, (flags_missing _ _ _ _ Hi Hv). reflexivity.
    + rewrite flags_length. exact (well_formed_length _ _ _ Hwf Hget).
Qed.

Lemma handle_outliers_keeps_missing_cells_witness :
  (exists feature' : list float,
     get_col (h_df (fst (handle_outliers df_missing (Name "y") "Z" "compress")))
             "y" = Some (NumCol feature') /\
     nth_error feature' 1 = Some nan)
  /\
  In 1%Z (index (h_df (fst (handle_outliers df_missing (Name "y") "Z" "remove")))).
Proof.
  assert (Hne : "y" <> all_the_columns) by discriminate.
  assert (Hwf : well_formed df_missing).
  { unfold well_formed, df_missing; simpl. repeat split.
    - repeat constructor; simpl; intuition discriminate.
    - repeat constructor; simpl; intuition discriminate.
    - repeat constructor. }
  destruct (handle_outliers_keeps_missing_cells df_missing "y" "Z"
              [1; nan; 3] 1 nan Hne eq_refl eq_refl eq_refl eq_refl)
    as [Hc Hr].
  split; [exact Hc | exact (Hr Hwf 1%Z eq_refl)].
Defined.

(** ** Steps of handle_outliers: what they keep, what they append *)

Section Keeps.

Variable R : DataFrame -> Prop.

Lemma keeps_skip : keeps R skip.
Proof. intros s H. exact H. Qed.

Lemma keeps_emit (e : event) : keeps R (emit e).
Proof. intros s H. exact H. Qed.

Lemma keeps_seq (a b : step) : keeps R a -> keeps R b -> keeps R (seq a b).
Proof.
  intros Ha Hb s H. unfold seq. specialize (Ha s H).
  destruct (a s) as [s' [u|e]]; simpl in *; [now apply Hb | exact Ha].
Qed.

Lemma keeps_when (c : bool) (a : step) : (c = true -> keeps R a) -> keeps R (when c a).
Proof. destruct c; intros Ha; [now apply Ha | apply keeps_skip]. Qed.

Lemma keeps_with_locals (var : string) (k : triple -> step) :
  (forall t, keeps R (k t)) -> keeps R (with_locals var k).
Proof.
  intros Hk s H. unfold with_locals.
  destruct (h_locals s) as [t|]; [now apply Hk | exact H].
Qed.

Lemma keeps_detect (detector : DataFrame -> selector -> string -> W (option triple))
  (column : string) : keeps R (detect detector column).
Proof.
  intros s H. unfold detect.
  destruct (detector (h_df s) (Name column) "return") as [o [[t|]|e]]; exact H.
Qed.

Lemma keeps_remove_rows :
  (forall df labels, R df -> R (drop_rows df labels)) -> keeps R remove_rows.
Proof.
  intros Hdrop. unfold remove_rows. apply keeps_with_locals. intros t s H.
  cbv beta zeta.
  destruct (forallb (fun l => mem_label l (index (h_df s)))
                    (outliers_index (snd t)));
    simpl; [now apply Hdrop | exact H].
Qed.

Lemma keeps_assign_where (column : string) (test : float -> bool) (bound : float) :
  (forall df vs (f : float -> float),
      R df -> get_col df column = Some (NumCol vs) ->
      R (set_col df column (map f vs))) ->
  keeps R (assign_where column test bound).
Proof.
  intros Hset s H. unfold assign_where.
  destruct (get_col (h_df s) column) as [[vs|vs]|] eqn:E; simpl; try exact H.
  now apply Hset.
Qed.

(** The loop body keeps what the action it runs keeps. *)
Lemma keeps_handle_column (meth action column : string) :
  (String.eqb action "remove" = true ->
   forall df labels, R df -> R (drop_rows df labels)) ->
  (String.eqb action "compress" = true ->
   forall df vs (f : float -> float),
     R df -> get_col df column = Some (NumCol vs) ->
     R (set_col df column (map f vs))) ->
  keeps R (handle_column meth action column).
Proof.
  intros Hdrop Hset. unfold handle_column.
  apply keeps_seq; [apply keeps_when; intros _; apply keeps_detect|].
  apply keeps_seq; [apply keeps_when; intros _; apply keeps_detect|].
  apply keeps_seq.
  { apply keeps_when. intros Ha. apply keeps_seq.
    - apply keeps_remove_rows. now apply Hdrop.
    - apply keeps_with_locals. intros t. apply keeps_emit. }
  apply keeps_seq; [|apply keeps_emit].
  apply keeps_when. intros Ha. apply keeps_seq.
  { apply keeps_with_locals. intros t. apply keeps_assign_where. now apply Hset. }
  apply keeps_seq.
  { apply keeps_with_locals. intros t. apply keeps_assign_where. now apply Hset. }
  apply keeps_with_locals. intros t. apply keeps_emit.
Qed.

Lemma keeps_handle_loop (meth action : string) (cols : list string) :
  (String.eqb action "remove" = true ->
   forall df labels, R df -> R (drop_rows df labels)) ->
  (String.eqb action "compress" = true ->
   forall column df vs (f : float -> float),
     In column cols ->
     R df -> get_col df column = Some (NumCol vs) ->
     R (set_col df column (map f vs))) ->
  keeps R (handle_loop meth action cols).
Proof.
  intros Hdrop Hset. induction cols as [|c cols IH]; simpl.
  - apply keeps_skip.
  - apply keeps_seq.
    + apply keeps_handle_column; [exact Hdrop|].
      intros Ha df vs f. apply Hset; [exact Ha | now left].
    + apply IH. intros Ha column df vs f Hin. apply Hset; [exact Ha | now right].
Qed.

End Keeps.

(** ** What handle_outliers keeps of a frame *)

Lemma select_NoDup {A : Type} (mask : list bool) (l : list A) :
  NoDup l -> NoDup (select mask l).
Proof.
  revert l. induction mask as [|b mask IH]; intros [|a l] H; simpl;
    try constructor.
  inversion H as [|? ? Hnotin Hl]; subst.
  destruct b; [|now apply IH].
  constructor; [|now apply IH].
  intros Hin. apply Hnotin. now apply select_incl in Hin.
Qed.

Lemma column_names_drop_rows (df : DataFrame) (labels : list Z) :
  column_names (drop_rows df labels) = column_names df.
Proof.
  unfold column_names, drop_rows. simpl. rewrite map_map. reflexivity.
Qed.

Lemma column_names_set_col (df : DataFrame) (name : string) (vs : list float) :
  column_names (set_col df name vs) = column_names df.
Proof.
  unfold column_names, set_col. simpl. rewrite map_map. apply map_ext.
  intros [n c]. simpl. now destruct (String.eqb n name).
Qed.

Lemma well_formed_drop_rows (df : DataFrame) (labels : list Z) :
  well_formed df -> well_formed (drop_rows df labels).
Proof.
  intros (Hidx & Hnames & Hlen). repeat split.
  - unfold drop_rows. simpl. now apply select_NoDup.
  - now rewrite column_names_drop_rows.
  - now apply drop_rows_columns_length.
Qed.

Lemma well_formed_set_col (df : DataFrame) (name : string)
  (vs : list float) (f : float -> float) :
  well_formed df -> get_col df name = Some (NumCol vs) ->
  well_formed (set_col df name (map f vs)).
Proof.
  intros Hwf Hget. pose proof (well_formed_length _ _ _ Hwf Hget) as Hvs.
  destruct Hwf as (Hidx & Hnames & Hlen). repeat split.
  - exact Hidx.
  - now rewrite column_names_set_col.
  - unfold set_col. simpl. apply Forall_forall. intros nc Hin.
    apply in_map_iff in Hin as ([n c] & <- & Hin). simpl.
    destruct (String.eqb n name); simpl.
    + rewrite length_map. exact Hvs.
    + rewrite Forall_forall in Hlen. exact (Hlen _ Hin).
Qed.

(** X6.  Whatever the selector, the method and the action, and
    whether the call succeeds or raises, [handle_outliers] leaves a
    well-formed frame well formed (one label per row, one name per
    column, every column as long as the index) and neither adds, removes,
    renames nor reorders columns. *)
Theorem handle_outliers_keeps_frame_shape
  (df : DataFrame) (columns : selector) (meth action : string) :
  well_formed df ->
  well_formed (h_df (fst (handle_outliers df columns meth action))) /\
  column_names (h_df (fst (handle_outliers df columns meth action)))
  = column_names df.
Proof.
  intros Hwf. unfold handle_outliers.
  apply (keeps_handle_loop
           (fun d => well_formed d /\ column_names d = column_names df)).
  - intros _ d labels (Hd & Hn). split.
    + now apply well_formed_drop_rows.
    + now rewrite column_names_drop_rows.
  - intros _ column d vs f _ (Hd & Hn) Hget. split.
    + now apply well_formed_set_col.
    + now rewrite column_names_set_col.
  - simpl. now split.
Qed.

Lemma handle_outliers_keeps_frame_shape_witness :
  well_formed
    (h_df (fst (handle_outliers df_scenario (Names ["x"; "price"]) "IQR"
                  "remove"))) /\
  column_names
    (h_df (fst (handle_outliers df_scenario (Names ["x"; "price"]) "IQR"
                  "remove")))
  = ["x"; "name"].
Proof.
  assert (Hwf : well_formed df_scenario).
  { unfold well_formed, df_scenario, labels6; simpl. repeat split.
    - repeat constructor; simpl; intuition discriminate.
    - repeat constructor; simpl; intuition discriminate.
    - repeat constructor. }
  exact (handle_outliers_keeps_frame_shape df_scenario
           (Names ["x"; "price"]) "IQR" "remove" Hwf).
Defined.

(** ** The remove action only deletes rows *)

Lemma select_compose {A : Type} (m1 m2 : list bool) (l : list A) :
  select (compose_mask m1 m2) l = select m2 (select m1 l).
Proof.
  revert m2 l. induction m1 as [|b m1 IH]; intros m2 l.
  - simpl. now destruct m2.
  - destruct b.
    + destruct l as [|a l]; simpl.
      * destruct m2; [|now destruct m2]. reflexivity.
      * destruct m2 as [|b2 m2]; simpl.
        -- rewrite IH. now destruct (select m1 l).
        -- rewrite IH. reflexivity.
    + destruct l as [|a l]; simpl; [now destruct m2|]. apply IH.
Qed.

Lemma select_col_compose (m1 m2 : list bool) (c : column) :
  select_col (compose_mask m1 m2) c = select_col m2 (select_col m1 c).
Proof. destruct c; simpl; now rewrite select_compose. Qed.

Lemma restrict_restrict (df : DataFrame) (m1 m2 : list bool) :
  restrict (restrict df m1) m2 = restrict df (compose_mask m1 m2).
Proof.
  unfold restrict. simpl. f_equal.
  - now rewrite select_compose.
  - rewrite map_map. apply map_ext. intros [n c]. simpl.
    now rewrite select_col_compose.
Qed.

Lemma get_col_restrict (df : DataFrame) (mask : list bool) (name : string) :
  get_col (restrict df mask) name
  = option_map (select_col mask) (get_col df name).
Proof. unfold get_col, restrict; simpl. apply lookup_map_snd. Qed.

(** X7.  With the action 'remove', whatever the selector and the
    method, and whether the call succeeds or raises, [handle_outliers]
    only deletes rows: there is one mask over the rows such that the
    index and every column of the frame left are the selection of the
    original ones by that mask.  No cell is altered, no row reordered,
    and the same rows are missing from every column. *)
Theorem remove_only_deletes_rows
  (df : DataFrame) (columns : selector) (meth : string) :
  rectangular df ->
  exists mask : list bool,
    h_df (fst (handle_outliers df columns meth "remove")) = restrict df mask /\
    index (h_df (fst (handle_outliers df columns meth "remove")))
    = select mask (index df) /\
    forall (B : string) (c : column),
      get_col df B = Some c ->
      get_col (h_df (fst (handle_outliers df columns meth "remove"))) B
      = Some (select_col mask c).
Proof.
  intros Hrect.
  assert (H : exists mask,
             h_df (fst (handle_outliers df columns meth "remove"))
             = restrict df mask).
  { unfold handle_outliers.
    apply (keeps_handle_loop (fun d => exists mask, d = restrict df mask)).
    - intros _ d labels (m & ->).
      exists (compose_mask m (keep_mask labels (index (restrict df m)))).
      rewrite <- restrict_restrict. reflexivity.
    - intros Ha. discriminate Ha.
    - simpl. exists (keep_mask [] (index df)).
      symmetry. exact (drop_rows_nil df Hrect). }
  destruct H as (mask & Hmask). exists mask. rewrite Hmask.
  split; [reflexivity|]. split; [reflexivity|].
  intros B c HB. now rewrite get_col_restrict, HB.
Qed.

Lemma remove_only_deletes_rows_witness :
  exists mask : list bool,
    h_df (fst (handle_outliers df_two (Names ["a"; "b"]) "IQR" "remove"))
    = restrict df_two mask.
Proof.
  assert (Hrect : rectangular df_two) by (repeat constructor).
  destruct (remove_only_deletes_rows df_two (Names ["a"; "b"]) "IQR" Hrect)
    as (mask & Hmask & _).
  exists mask. exact Hmask.
Defined.

(** ** The compress action only rewrites cells of the listed columns *)

(** X8.  With the action 'compress', whatever the selector and the
    method, and whether the call succeeds or raises, [handle_outliers]
    keeps the index and the column names, leaves every column that is
    not listed exactly as it was, and keeps the number of cells of every
    column: it never deletes a row. *)
Theorem compress_touches_listed_columns_only
  (df : DataFrame) (columns : selector) (meth : string) :
  let cols := match columns with Name s => [s] | Names l => l end in
  let df' := h_df (fst (handle_outliers df columns meth "compress")) in
  index df' = index df /\
  column_names df' = column_names df /\
  (forall B : string, ~ In B cols -> get_col df' B = get_col df B) /\
  (forall (B : string) (c : column),
      get_col df B = Some c ->
      exists c' : column,
        get_col df' B = Some c' /\ col_length c' = col_length c).
Proof.
  intros cols df'. subst df'. unfold handle_outliers. fold cols.
  apply (keeps_handle_loop
           (fun d => index d = index df /\
                     column_names d = column_names df /\
                     (forall B, ~ In B cols -> get_col d B = get_col df B) /\
                     (forall B c, get_col df B = Some c ->
                                  exists c', get_col d B = Some c' /\
                                             col_length c' = col_length c))).
  - intros Ha. discriminate Ha.
  - intros _ column d vs f Hin (Hidx & Hn & Hother & Hlen) Hget.
    split; [exact Hidx|]. split; [now rewrite column_names_set_col|]. split.
    + intros B HB. rewrite get_col_set_col_other; [now apply Hother|].
      intros ->. contradiction.
    + intros B c HB. destruct (Hlen B c HB) as (c' & Hc' & Hl).
      destruct (String.eqb_spec B column) as [->|Hne].
      * exists (NumCol (map f vs)). split.
        -- exact (get_col_set_col_same _ _ _ _ Hget).
        -- rewrite Hget in Hc'. injection Hc' as <-. simpl in *.
           now rewrite length_map.
      * exists c'. split; [|exact Hl].
        now rewrite get_col_set_col_other.
  - simpl. repeat split; try reflexivity.
    intros B c HB. exists c. now split.
Qed.

(** A clamped value is within the limits, when these are in order. *)
Lemma clamp_within_limits (upper lower v : float) :
  (upper <? lower) = false ->
  (upper <? clamp upper lower v) = false /\
  (clamp upper lower v <? lower) = false.
Proof.
  intros Hul. unfold clamp.
  destruct (upper <? v) eqn:Huv.
  - rewrite Hul. split; [apply FloatFacts.ltb_irrefl | exact Hul].
  - destruct (v <? lower) eqn:Hvl.
    + split; [exact Hul | apply FloatFacts.ltb_irrefl].
    + split; assumption.
Qed.

(** X9.  After a compress call on a numeric column A (a recognised
    method, A not the sentinel, computed limits with upper not below
    lower) no cell of A is above the upper limit or below the lower
    limit the call computed. *)
Theorem compress_brings_cells_within_limits
  (df : DataFrame) (A meth : string) (feature : list float) :
  A <> all_the_columns ->
  recognised meth = true ->
  get_col df A = Some (NumCol feature) ->
  let upper := fst (limits meth feature) in
  let lower := snd (limits meth feature) in
  (upper <? lower) = false ->
  exists feature' : list float,
    get_col (h_df (fst (handle_outliers df (Name A) meth "compress"))) A
    = Some (NumCol feature') /\
    Forall (fun v' => (upper <? v') = false /\ (v' <? lower) = false) feature'.
Proof.
  intros Hne Hrec Hget upper lower Hul.
  rewrite (compress_once _ _ _ _ Hne Hrec Hget). cbn [fst h_df].
  fold upper lower. eexists. split.
  - exact (get_col_set_col_same _ _ _ _ Hget).
  - apply Forall_forall. intros v' Hin.
    apply in_map_iff in Hin as (v & <- & _). now apply clamp_within_limits.
Qed.

Lemma compress_brings_cells_within_limits_witness :
  exists feature' : list float,
    get_col (h_df (fst (handle_outliers df_eleven (Name "x") "Z" "compress")))
            "x" = Some (NumCol feature') /\
    Forall (fun v' =>
              (fst (limits "Z" [0; 0; 0; 0; 0; 0; 0; 0; 0; 0; 110]) <? v') = false
              /\ (v' <? snd (limits "Z" [0; 0; 0; 0; 0; 0; 0; 0; 0; 0; 110]))
                 = false)
           feature'.
Proof.
  assert (Hne : "x" <> all_the_columns) by discriminate.
  exact (compress_brings_cells_within_limits df_eleven "x" "Z"
           [0; 0; 0; 0; 0; 0; 0; 0; 0; 0; 110] Hne eq_refl eq_refl eq_refl).
Defined.

(** ** Columns are handled one after the other *)

Lemma appends_skip : appends skip.
Proof. intros df loc out. unfold skip. simpl. now rewrite app_nil_r. Qed.

Lemma appends_emit (e : event) : appends (emit e).
Proof. intros df loc out. reflexivity. Qed.

Lemma appends_seq (a b : step) : appends a -> appends b -> appends (seq a b).
Proof.
  intros Ha Hb df loc out. unfold seq. rewrite (Ha df loc out).
  destruct (a (mkH df loc [])) as [[df1 loc1 out1] [u|e]]; simpl.
  - rewrite (Hb df1 loc1 (out ++ out1)), (Hb df1 loc1 out1). simpl.
    now rewrite app_assoc.
  - reflexivity.
Qed.

Lemma appends_when (c : bool) (a : step) : appends a -> appends (when c a).
Proof. destruct c; intros Ha; [exact Ha | apply appends_skip]. Qed.

Lemma appends_with_locals (var : string) (k : triple -> step) :
  (forall t, appends (k t)) -> appends (with_locals var k).
Proof.
  intros Hk df loc out. unfold with_locals. simpl.
  destruct loc as [t|]; [apply Hk | simpl; now rewrite app_nil_r].
Qed.

Lemma appends_detect
  (detector : DataFrame -> selector -> string -> W (option triple))
  (column : string) : appends (detect detector column).
Proof.
  intros df loc out. unfold detect. simpl.
  destruct (detector df (Name column) "return") as [o [[t|]|e]]; reflexivity.
Qed.

Lemma appends_remove_rows : appends remove_rows.
Proof.
  unfold remove_rows. apply appends_with_locals. intros t df loc out. simpl.
  destruct (forallb (fun l => mem_label l (index df)) (outliers_index (snd t)));
    simpl; now rewrite app_nil_r.
Qed.

Lemma appends_assign_where (column : string) (test : float -> bool)
  (bound : float) : appends (assign_where column test bound).
Proof.
  intros df loc out. unfold assign_where. simpl.
  destruct (get_col df column) as [[vs|vs]|]; simpl; now rewrite app_nil_r.
Qed.

Lemma appends_after_detect (action column : string) :
  appends (after_detect action column).
Proof.
  unfold after_detect.
  apply appends_seq.
  { apply appends_when, appends_seq; [apply appends_remove_rows|].
    apply appends_with_locals. intros t. apply appends_emit. }
  apply appends_seq; [|apply appends_emit].
  apply appends_when, appends_seq.
  { unfold clamp_upper. apply appends_with_locals. intros t.
    apply appends_assign_where. }
  apply appends_seq.
  { unfold clamp_lower. apply appends_with_locals. intros t.
    apply appends_assign_where. }
  apply appends_with_locals. intros t. apply appends_emit.
Qed.

Lemma appends_handle_column (meth action column : string) :
  appends (handle_column meth action column).
Proof.
  unfold handle_column.
  apply appends_seq; [apply appends_when, appends_detect|].
  apply appends_seq; [apply appends_when, appends_detect|].
  exact (appends_after_detect action column).
Qed.

Lemma appends_handle_loop (meth action : string) (cols : list string) :
  appends (handle_loop meth action cols).
Proof.
  induction cols as [|c cols IH]; simpl.
  - apply appends_skip.
  - apply appends_seq; [apply appends_handle_column | exact IH].
Qed.

(** A recognised method runs its detector, then the action. *)
Lemma handle_column_detects (meth action column : string) (s : hstate) :
  recognised meth = true ->
  handle_column meth action column s
  = seq (detect (detector_of meth) column) (after_detect action column) s.
Proof.
  unfold recognised, detector_of, handle_column. intros Hrec.
  fold (after_detect action column).
  destruct (method_is meth "IQR") eqn:EI.
  - rewrite (method_exclusive _ EI). unfold seq, when, skip.
    now destruct (detect outliers_IQR column s) as [s' [u|e]].
  - simpl in Hrec. rewrite Hrec. unfold seq, when, skip. reflexivity.
Qed.

(** With a recognised method the locals a call starts from do not
    matter: they are bound anew before they are read. *)
Lemma locals_irrelevant (meth action : string) (cols : list string)
  (df : DataFrame) (loc : option triple) :
  recognised meth = true ->
  let r := handle_loop meth action cols (mkH df loc []) in
  let r0 := handle_loop meth action cols (mkH df None []) in
  h_df (fst r) = h_df (fst r0) /\ h_out (fst r) = h_out (fst r0) /\
  snd r = snd r0.
Proof.
  intros Hrec. destruct cols as [|c rest]; simpl.
  - repeat split.
  - unfold seq. rewrite !(handle_column_detects _ _ _ _ Hrec).
    unfold seq, detect. cbn [h_df h_locals h_out].
    destruct (detector_of meth df (Name c) "return") as [o [[t|]|e]];
      repeat split.
Qed.

(** A call that gets through its first column either has a recognised
    method or an action that is neither 'remove' nor 'compress'; in the
    second case nothing is bound. *)
Lemma first_column_passed (meth action c : string) (df : DataFrame)
  (s1 : hstate) :
  handle_column meth action c (mkH df None []) = (s1, Ok tt) ->
  recognised meth = true \/ h_locals s1 = None.
Proof.
  intros H. destruct (recognised meth) eqn:Hrec; [now left | right].
  rewrite (handle_column_unrecognised _ _ _ _ Hrec) in H.
  destruct (String.eqb action "remove") eqn:Hr.
  - apply String.eqb_eq in Hr. subst action. discriminate H.
  - destruct (String.eqb action "compress") eqn:Hc.
    + apply String.eqb_eq in Hc. subst action. discriminate H.
    + rewrite (after_detect_no_action _ _ _ Hr Hc) in H.
      injection H as <-. reflexivity.
Qed.

(** X10.  [handle_outliers] handles the listed columns one after the
    other on the frame as the previous column left it, and is not
    atomic.  If the call on the first column alone raises, the call on
    the whole list raises the same error in the same state.  If it
    succeeds, the call on the whole list ends with the frame, the result
    and the printed lines of a call on the remaining columns started
    from the frame the first column left: a later error leaves the
    earlier columns changed. *)
Theorem columns_are_handled_in_sequence
  (df : DataFrame) (c : string) (rest : list string) (meth action : string) :
  let r1 := handle_outliers df (Names [c]) meth action in
  let r := handle_outliers df (Names (c :: rest)) meth action in
  (forall e : exn, snd r1 = Raise e -> r = r1) /\
  (snd r1 = Ok tt ->
   let r2 := handle_outliers (h_df (fst r1)) (Names rest) meth action in
   h_df (fst r) = h_df (fst r2) /\
   h_out (fst r) = h_out (fst r1) ++ h_out (fst r2) /\
   snd r = snd r2).
Proof.
  intros r1 r.
  pose (hc := handle_column meth action c (mkH df None [])).
  assert (Hr1 : r1 = match hc with
                     | (s', Ok _) => (s', Ok tt)
                     | (s', Raise e) => (s', Raise e)
                     end) by reflexivity.
  assert (Hr : r = match hc with
                   | (s', Ok _) => handle_loop meth action rest s'
                   | (s', Raise e) => (s', Raise e)
                   end) by reflexivity.
  clearbody r1 r. subst r1 r.
  destruct hc as [s1 [[]|e]] eqn:E; cbn [fst snd].
  - split; [discriminate|]. intros _.
    destruct s1 as [df1 loc1 out1]. cbn [h_df h_out].
    rewrite (appends_handle_loop meth action rest df1 loc1 out1).
    cbn [fst snd h_df h_out]. unfold handle_outliers.
    destruct (first_column_passed _ _ _ _ _ E) as [Hrec|Hloc].
    + destruct (locals_irrelevant meth action rest df1 loc1 Hrec)
        as (Hd & Ho & Hr).
      rewrite Hd, Ho, Hr. repeat split.
    + simpl in Hloc. subst loc1. repeat split.
  - split; [reflexivity|]. discriminate.
Qed.

Lemma columns_are_handled_in_sequence_witness :
  snd (handle_outliers df_two (Names ["a"; "price"]) "IQR" "compress")
  = Raise (KeyError "price") /\
  get_col (h_df (fst (handle_outliers df_two (Names ["a"; "price"]) "IQR"
                        "compress"))) "a"
  = Some (NumCol [1; 2; 3; 4; 5; 8.5]) /\
  h_out (fst (handle_outliers df_two (Names ["a"; "price"]) "IQR" "compress"))
  = [PrintCompressed "a" (IQRSeries (mkSeries [5%Z] [100])); PrintSeparator].
Proof.
  destruct (columns_are_handled_in_sequence df_two "a" ["price"] "IQR"
              "compress") as [_ Hok].
  destruct (Hok eq_refl) as (Hd & Ho & Hr).
  split; [|split].
  - rewrite Hr. reflexivity.
  - rewrite Hd. reflexivity.
  - rewrite Ho. reflexivity.
Defined.

(** ** The sentinel handed to handle_outliers *)

Lemma detect_sentinel (meth : string) (df : DataFrame) (c : string)
  (feature : list float) (others : list (string * column))
  (loc : option triple) (out : list event) :
  columns df = (c, NumCol feature) :: others ->
  detect (detector_of meth) all_the_columns (mkH df loc out)
  = (mkH df (Some (limits meth feature, records meth (index df) feature)) out,
     Ok tt).
Proof.
  intros Hcols.
  assert (Hget : get_col df c = Some (NumCol feature)).
  { unfold get_col. rewrite Hcols. simpl. now rewrite String.eqb_refl. }
  unfold detect, detector_of, limits. rewrite records_method. cbn [h_df].
  destruct (method_is meth "IQR").
  - unfold outliers_IQR, normalize, column_names. rewrite Hcols. simpl.
    unfold iqr_calc. rewrite Hget. simpl. now rewrite app_nil_r.
  - unfold outliers_z_score, normalize, column_names. rewrite Hcols. simpl.
    unfold z_score_calc. rewrite Hget. simpl. now rewrite app_nil_r.
Qed.

(** X11.  [handle_outliers] called with the str 'all_the_columns' and
    a recognised method works from the outliers of the first column of
    the frame, because the detectors read that str as every column and
    return at the first one.  With the action 'remove' the call does
    exactly what it does when given the name of the first column; with
    the action 'compress' it raises the lookup error for
    'all_the_columns' (no column having that name) without changing the
    frame. *)
Theorem sentinel_selects_first_column
  (df : DataFrame) (c meth : string) (feature : list float)
  (others : list (string * column)) :
  columns df = (c, NumCol feature) :: others ->
  c <> all_the_columns ->
  recognised meth = true ->
  handle_outliers df (Name all_the_columns) meth "remove"
  = handle_outliers df (Name c) meth "remove"
  /\
  (get_col df all_the_columns = None ->
   handle_outliers df (Name all_the_columns) meth "compress"
   = (mkH df (Some (limits meth feature, records meth (index df) feature)) [],
      Raise (KeyError all_the_columns))).
Proof.
  intros Hcols Hne Hrec.
  assert (Hget : get_col df c = Some (NumCol feature)).
  { unfold get_col. rewrite Hcols. simpl. now rewrite String.eqb_refl. }
  split.
  - rewrite (remove_once _ _ _ _ Hne Hrec Hget).
    unfold handle_outliers. simpl handle_loop. unfold seq at 1.
    rewrite (handle_column_detects _ _ _ _ Hrec). unfold seq at 1.
    rewrite (detect_sentinel _ _ _ _ _ _ _ Hcols).
    rewrite (after_detect_remove _ _ _ (flags meth feature))
      by apply records_index.
    reflexivity.
  - intros Hnone.
    unfold handle_outliers. simpl handle_loop. unfold seq at 1.
    rewrite (handle_column_detects _ _ _ _ Hrec). unfold seq at 1.
    rewrite (detect_sentinel _ _ _ _ _ _ _ Hcols).
    unfold after_detect. simpl when.
    unfold seq, skip, clamp_upper, with_locals, assign_where.
    cbn [h_df h_locals h_out]. rewrite Hnone. reflexivity.
Qed.

Lemma sentinel_selects_first_column_witness :
  handle_outliers df_scenario (Name all_the_columns) "Z" "remove"
  = handle_outliers df_scenario (Name "x") "Z" "remove"
  /\
  snd (handle_outliers df_scenario (Name all_the_columns) "Z" "compress")
  = Raise (KeyError all_the_columns).
Proof.
  assert (Hne : "x" <> all_the_columns) by discriminate.
  destruct (sentinel_selects_first_column df_scenario "x" "Z"
              [1; 2; 3; 4; 5; 100]
              [("name", ObjCol ["a"; "b"; "c"; "d"; "e"; "f"])]
              eq_refl Hne eq_refl) as [Hrem Hcomp].
  split; [exact Hrem|]. now rewrite (Hcomp eq_refl).
Defined.

(** ** A column without a present value *)

Lemma dropna_nil_missing (feature : list float) :
  Num.dropna feature = [] ->
  Forall (fun v => PrimFloat.is_nan v = true) feature.
Proof.
  unfold Num.dropna. induction feature as [|v feature IH]; simpl;
    [constructor|].
  destruct (PrimFloat.is_nan v) eqn:E; simpl; [|discriminate].
  intros H. constructor; [exact E | now apply IH].
Qed.

Lemma flags_all_missing (meth : string) (feature : list float) :
  Forall (fun v => PrimFloat.is_nan v = true) feature ->
  Forall (fun b => b = false) (flags meth feature).
Proof.
  intros Hall. rewrite flags_statistics. apply Forall_forall. intros b Hb.
  apply in_map_iff in Hb as (v & <- & Hv).
  rewrite Forall_forall in Hall. now apply flagged_by_missing, Hall.
Qed.

Lemma set_col_self (df : DataFrame) (name : string) (vs : list float) :
  NoDup (column_names df) ->
  get_col df name = Some (NumCol vs) ->
  set_col df name vs = df.
Proof.
  destruct df as [idx cols]. unfold column_names, get_col, set_col. simpl.
  intros Hnd Hget. f_equal.
  induction cols as [|[n c] cols IH]; simpl in *; [reflexivity|].
  inversion Hnd as [|? ? Hnotin Hnd']; subst.
  destruct (String.eqb_spec n name) as [->|Hn].
  - injection Hget as ->. f_equal.
    rewrite <- (map_id cols) at 2. apply map_ext_in. intros [n' c'] Hin. simpl.
    destruct (String.eqb_spec n' name) as [->|_]; [|reflexivity].
    exfalso. apply Hnotin. apply in_map_iff. now exists (name, c').
  - f_equal. now apply IH.
Qed.

(** X12.  A numeric column without a single present value (an empty
    column, or missing values only) is left alone: with a recognised
    method, 'remove' and 'compress' both succeed on it, report no outlier
    and return the well-formed frame unchanged. *)
Theorem column_without_values_is_left_alone
  (df : DataFrame) (A meth action : string) (feature : list float) :
  well_formed df ->
  A <> all_the_columns ->
  recognised meth = true ->
  get_col df A = Some (NumCol feature) ->
  Num.dropna feature = [] ->
  action = "remove" \/ action = "compress" ->
  snd (handle_outliers df (Name A) meth action) = Ok tt /\
  h_df (fst (handle_outliers df (Name A) meth action)) = df /\
  outliers_index (records meth (index df) feature) = [].
Proof.
  intros Hwf Hne Hrec Hget Hdrop Hact.
  pose proof (flags_all_missing meth _ (dropna_nil_missing _ Hdrop)) as Hnone.
  assert (Hrecords : outliers_index (records meth (index df) feature) = []).
  { rewrite records_index. now apply select_none. }
  destruct Hact as [-> | ->].
  - rewrite (remove_once _ _ _ _ Hne Hrec Hget). cbn [fst snd h_df].
    rewrite (select_none _ _ Hnone).
    repeat split; [|exact Hrecords]. apply drop_rows_nil, Hwf.
  - rewrite (compress_once _ _ _ _ Hne Hrec Hget). cbn [fst snd h_df].
    repeat split; [|exact Hrecords].
    rewrite (map_ext_in _ (fun v => v)), map_id.
    + apply set_col_self; [apply Hwf | exact Hget].
    + intros v Hv. apply clamp_missing.
      pose proof (dropna_nil_missing _ Hdrop) as Hall.
      rewrite Forall_forall in Hall. now apply Hall.
Qed.

Lemma column_without_values_is_left_alone_witness :
  snd (handle_outliers df_missing (Name "x") "IQR" "compress") = Ok tt /\
  h_df (fst (handle_outliers df_missing (Name "x") "IQR" "compress"))
  = df_missing.
Proof.
  assert (Hne : "x" <> all_the_columns) by discriminate.
  assert (Hwf : well_formed df_missing).
  { unfold well_formed, df_missing; simpl. repeat split.
    - repeat constructor; simpl; intuition discriminate.
    - repeat constructor; simpl; intuition discriminate.
    - repeat constructor. }
  destruct (column_without_values_is_left_alone df_missing "x" "IQR"
              "compress" [nan; nan; nan] Hwf Hne eq_refl eq_refl eq_refl
              (or_intror eq_refl)) as (Hok & Hdf & _).
  split; [exact Hok | exact Hdf].
Defined.

(** ** analysis_quant and analysis_cate *)

Lemma abind_lines {A B : Type} (lines : list aevent) (a : A) (k : AW B) :
  abind (lines, Ok a) (fun _ => k) = (lines ++ fst k, snd k).
Proof. destruct k. reflexivity. Qed.

Lemma get_col_listed (df : DataFrame) (c : string) :
  In c (column_names df) -> get_col df c <> None.
Proof.
  unfold column_names, get_col.
  induction (columns df) as [|[n col] cols IH]; simpl; [tauto|].
  intros [->|Hin].
  - now rewrite String.eqb_refl.
  - destruct (String.eqb n c); [discriminate | now apply IH].
Qed.

(** What the three printing functions do when [analysis_quant] calls
    them with the name of a numeric column. *)
Lemma printing_calls (df : DataFrame) (c : string) (feature : list float) :
  c <> all_the_columns ->
  get_col df c = Some (NumCol feature) ->
  five_point_summary df (Name c) = (summary_lines df c, Ok tt) /\
  outliers_z_score df (Name c) "print" = (z_report df c, Ok None) /\
  outliers_IQR df (Name c) "print" = (iqr_report df c, Ok None).
Proof.
  intros Hne Hget.
  assert (Hnum : Forall (numeric_in df) [c]).
  { constructor; [now exists feature | constructor]. }
  assert (Hpres : Forall (fun c => get_col df c <> None) [c]).
  { constructor; [now rewrite Hget | constructor]. }
  unfold five_point_summary, outliers_z_score, outliers_IQR.
  rewrite (normalize_name _ _ Hne).
  change [c] with ([c] ++ []).
  rewrite (five_point_loop_app _ _ _ Hpres).
  rewrite (z_score_loop_app df "print" [c] [] eq_refl Hnum).
  rewrite (iqr_loop_app df "print" [c] [] eq_refl Hnum).
  simpl. now rewrite !app_nil_r.
Qed.

Lemma analysis_quant_loop_app (df : DataFrame) (figsize : Z * Z) (dpi : Z)
  (pre rest : list string) :
  Forall (fun c => c <> all_the_columns /\ get_col df c <> None) pre ->
  analysis_quant_loop df figsize dpi (pre ++ rest)
  = (flat_map (quant_block df figsize dpi) pre
     ++ fst (analysis_quant_loop df figsize dpi rest),
     snd (analysis_quant_loop df figsize dpi rest)).
Proof.
  intros Hpre. induction Hpre as [|c pre (Hne & Hc) _ IH].
  - simpl. now destruct (analysis_quant_loop df figsize dpi rest).
  - cbn [app analysis_quant_loop flat_map]. unfold quant_block at 1.
    destruct (get_col df c) as [[feature|vs]|] eqn:E; [| |contradiction].
    + destruct (printing_calls _ _ _ Hne E) as (H5 & Hz & Hi).
      rewrite H5, Hz, Hi, IH. unfold call, aprint, quant_figure. cbn [fst snd].
      repeat (rewrite abind_lines; cbn [fst snd]).
      f_equal. rewrite <- !app_assoc. reflexivity.
    + rewrite IH. unfold aprint.
      repeat (rewrite abind_lines; cbn [fst snd]). reflexivity.
Qed.

(** X13.  [analysis_quant] analyses the selected columns in order and
    never raises on columns of the frame (none of them named like the
    sentinel): a numeric column gets its title, what
    [five_point_summary], [outliers_z_score] and [outliers_IQR] print for
    it, its two plots and a rule; a text column gets its title, the hint
    to use [analysis_cate] and a rule, and is handed to none of the three
    functions.  With the default selector every column of the frame is
    analysed.  A name that is no column raises the lookup error before
    anything is printed for it, the columns before it having been
    analysed. *)
Theorem analysis_quant_blocks
  (df : DataFrame) (figsize : Z * Z) (dpi : Z)
  (pre post : list string) (c : string) :
  Forall (fun c => c <> all_the_columns /\ get_col df c <> None) pre ->
  analysis_quant df (Names pre) figsize dpi
  = (flat_map (quant_block df figsize dpi) pre, Ok tt)
  /\
  (~ In all_the_columns (column_names df) ->
   analysis_quant df (Name all_the_columns) figsize dpi
   = (flat_map (quant_block df figsize dpi) (column_names df), Ok tt))
  /\
  (get_col df c = None ->
   analysis_quant df (Names (pre ++ c :: post)) figsize dpi
   = (flat_map (quant_block df figsize dpi) pre, Raise (KeyError c))).
Proof.
  intros Hpre. unfold analysis_quant. split; [|split].
  - cbn [normalize]. rewrite <- (app_nil_r pre) at 1.
    rewrite (analysis_quant_loop_app _ _ _ _ _ Hpre). simpl.
    now rewrite app_nil_r.
  - intros Hsent.
    change (normalize df (Name all_the_columns)) with (column_names df).
    rewrite <- (app_nil_r (column_names df)) at 1.
    rewrite analysis_quant_loop_app.
    + simpl. now rewrite app_nil_r.
    + apply Forall_forall. intros x Hx. split.
      * intros ->. contradiction.
      * now apply get_col_listed.
  - intros Hc. cbn [normalize].
    rewrite (analysis_quant_loop_app _ _ _ _ _ Hpre). simpl.
    rewrite Hc. simpl. now rewrite app_nil_r.
Qed.

Lemma analysis_quant_blocks_witness :
  analysis_quant df_scenario (Names ["name"; "price"]) (20, 7)%Z 120%Z
  = ([PrintAnalysisTitle "name"; PrintCategoricalHint "name"; PrintLongRule],
     Raise (KeyError "price"))
  /\
  snd (analysis_quant df_scenario (Name all_the_columns) (20, 7)%Z 120%Z)
  = Ok tt.
Proof.
  assert (Hpre : Forall (fun c => c <> all_the_columns /\
                                  get_col df_scenario c <> None) ["name"]).
  { repeat constructor; discriminate. }
  assert (Hsent : ~ In all_the_columns (column_names df_scenario)).
  { simpl. intuition discriminate. }
  destruct (analysis_quant_blocks df_scenario (20, 7)%Z 120%Z ["name"] []
              "price" Hpre) as (_ & Hall & Hmiss).
  split; [exact (Hmiss eq_refl)|]. now rewrite (Hall Hsent).
Defined.

Lemma analysis_cate_loop_app (df : DataFrame) (figsize : Z * Z) (dpi : Z)
  (force : bool) (pre rest : list string) :
  Forall (fun c => get_col df c <> None) pre ->
  analysis_cate_loop df figsize dpi force (pre ++ rest)
  = (flat_map (cate_block df figsize dpi force) pre
     ++ fst (analysis_cate_loop df figsize dpi force rest),
     snd (analysis_cate_loop df figsize dpi force rest)).
Proof.
  intros Hpre. induction Hpre as [|c pre Hc _ IH].
  - simpl. now destruct (analysis_cate_loop df figsize dpi force rest).
  - cbn [app analysis_cate_loop flat_map]. unfold cate_block at 1.
    destruct (get_col df c) as [feature|] eqn:E; [|contradiction].
    rewrite IH. unfold aprint, aret, cate_figure.
    destruct (negb force && Nat.ltb 20 (nunique feature)).
    + repeat (rewrite abind_lines; cbn [fst snd]). reflexivity.
    + destruct force; repeat (rewrite abind_lines; cbn [fst snd]);
        reflexivity.
Qed.

(** X14.  [analysis_cate] goes through the selected columns in order
    and never raises on columns of the frame.  Unless forced, a column
    with more than 20 distinct present values only gets its title, the
    hint to use [analysis_quant] and a rule: a bar plot is drawn for a
    column only if the call is forced or the column has at most 20
    distinct values.  A name that is no column raises the lookup error
    before anything is printed for it. *)
Theorem analysis_cate_blocks
  (df : DataFrame) (figsize : Z * Z) (dpi : Z) (force : bool)
  (pre post : list string) (c : string) :
  Forall (fun c => get_col df c <> None) pre ->
  analysis_cate df (Names pre) figsize dpi force
  = (flat_map (cate_block df figsize dpi force) pre, Ok tt)
  /\
  (forall feature : column,
      In (Barplot feature)
         (fst (analysis_cate df (Names pre) figsize dpi force)) ->
      force = true \/ (nunique feature <= 20)%nat)
  /\
  (get_col df c = None ->
   analysis_cate df (Names (pre ++ c :: post)) figsize dpi force
   = (flat_map (cate_block df figsize dpi force) pre, Raise (KeyError c))).
Proof.
  intros Hpre.
  assert (Hrun : analysis_cate df (Names pre) figsize dpi force
                 = (flat_map (cate_block df figsize dpi force) pre, Ok tt)).
  { unfold analysis_cate. cbn [normalize]. rewrite <- (app_nil_r pre) at 1.
    rewrite (analysis_cate_loop_app _ _ _ _ _ _ Hpre). simpl.
    now rewrite app_nil_r. }
  split; [exact Hrun|]. split.
  - intros feature Hin. rewrite Hrun in Hin. cbn [fst] in Hin.
    apply in_flat_map in Hin as (x & _ & Hin). unfold cate_block in Hin.
    destruct (get_col df x) as [f|]; [|contradiction].
    destruct force; [now left | right]. simpl in Hin.
    destruct (Nat.ltb 20 (nunique f)) eqn:E; simpl in Hin.
    + repeat (destruct Hin as [Hin|Hin]; [discriminate|]). contradiction.
    + repeat (destruct Hin as [Hin|Hin];
              [try discriminate; injection Hin as ->;
               apply Nat.ltb_ge in E; exact E|]).
      contradiction.
  - intros Hc. unfold analysis_cate. cbn [normalize].
    rewrite (analysis_cate_loop_app _ _ _ _ _ _ Hpre). simpl.
    rewrite Hc. simpl. now rewrite app_nil_r.
Qed.

Lemma analysis_cate_blocks_witness :
  analysis_cate df_mixed (Names ["amount"; "price"]) (20, 7)%Z 120%Z false
  = ([PrintAnalysisTitle "amount"; PrintNumericalHint "amount"; PrintLongRule],
     Raise (KeyError "price")).
Proof.
  assert (Hpre : Forall (fun c => get_col df_mixed c <> None) ["amount"]).
  { repeat constructor. discriminate. }
  exact (proj2 (proj2 (analysis_cate_blocks df_mixed (20, 7)%Z 120%Z false
                         ["amount"] [] "price" Hpre)) eq_refl).
Defined.

(** ** The method token *)

Module StrFacts.

Lemma append_nil_r (s : string) : (s ++ "")%string = s.
Proof. induction s as [|c s IH]; simpl; [reflexivity | now rewrite IH]. Qed.

Lemma append_assoc (s t u : string) :
  ((s ++ t) ++ u)%string = (s ++ (t ++ u))%string.
Proof. induction s as [|c s IH]; simpl; [reflexivity | now rewrite IH]. Qed.

Lemma rev_append_spec (s acc : string) :
  Str.rev_append s acc = (Str.rev s ++ acc)%string.
Proof.
  unfold Str.rev. revert acc. induction s as [|c s IH]; intros acc; simpl.
  - reflexivity.
  - rewrite (IH (String c acc)), (IH (String c EmptyString)).
    now rewrite append_assoc.
Qed.

Lemma rev_cons (c : ascii) (s : string) :
  Str.rev (String c s) = (Str.rev s ++ String c "")%string.
Proof. unfold Str.rev at 1. simpl. apply rev_append_spec. Qed.

Lemma rev_app (s t : string) :
  Str.rev (s ++ t) = (Str.rev t ++ Str.rev s)%string.
Proof.
  induction s as [|c s IH]; simpl.
  - now rewrite append_nil_r.
  - now rewrite !rev_cons, IH, append_assoc.
Qed.

Lemma all_space_app (s t : string) :
  all_space (s ++ t) = all_space s && all_space t.
Proof.
  induction s as [|c s IH]; simpl; [reflexivity|].
  now rewrite IH, andb_assoc.
Qed.

Lemma all_space_rev (s : string) : all_space (Str.rev s) = all_space s.
Proof.
  induction s as [|c s IH]; [reflexivity|].
  rewrite rev_cons, all_space_app, IH. simpl.
  now rewrite andb_true_r, andb_comm.
Qed.

Lemma lstrip_spaces (w s : string) :
  all_space w = true -> Str.lstrip (w ++ s) = Str.lstrip s.
Proof.
  induction w as [|c w IH]; simpl; [reflexivity|].
  intros H. apply andb_prop in H as [Hc Hw]. rewrite Hc. now apply IH.
Qed.

Lemma lstrip_all_space (s : string) :
  all_space s = true -> Str.lstrip s = "".
Proof.
  intros H. rewrite <- (append_nil_r s). now rewrite lstrip_spaces.
Qed.

Lemma lstrip_empty (s : string) : Str.lstrip s = "" -> all_space s = true.
Proof.
  induction s as [|c s IH]; simpl; [reflexivity|].
  destruct (Str.is_space c); [exact IH | discriminate].
Qed.

Lemma lstrip_app (s x : string) :
  Str.lstrip s <> "" -> Str.lstrip (s ++ x) = (Str.lstrip s ++ x)%string.
Proof.
  induction s as [|c s IH]; simpl; [congruence|].
  destruct (Str.is_space c); [exact IH | reflexivity].
Qed.

(** Whitespace around a token is stripped. *)
Lemma strip_padding (w1 w2 s : string) :
  all_space w1 = true -> all_space w2 = true ->
  Str.strip (w1 ++ s ++ w2) = Str.strip s.
Proof.
  intros H1 H2. unfold Str.strip. rewrite (lstrip_spaces _ _ H1).
  destruct (Str.lstrip s) as [|c t] eqn:E.
  - rewrite (lstrip_all_space (s ++ w2)); [reflexivity|].
    rewrite all_space_app, H2, (lstrip_empty _ E). reflexivity.
  - rewrite (lstrip_app s w2) by (rewrite E; discriminate). rewrite E.
    rewrite rev_app, (lstrip_spaces (Str.rev w2)); [reflexivity|].
    now rewrite all_space_rev.
Qed.

Lemma is_space_upper_char (c : ascii) :
  Str.is_space (Str.upper_char c) = Str.is_space c.
Proof. destruct c as [[] [] [] [] [] [] [] []]; reflexivity. Qed.

Lemma upper_char_idem (c : ascii) :
  Str.upper_char (Str.upper_char c) = Str.upper_char c.
Proof. destruct c as [[] [] [] [] [] [] [] []]; reflexivity. Qed.

Lemma upper_idem (s : string) : Str.upper (Str.upper s) = Str.upper s.
Proof.
  induction s as [|c s IH]; simpl; [reflexivity|].
  now rewrite upper_char_idem, IH.
Qed.

Lemma upper_app (s t : string) :
  Str.upper (s ++ t) = (Str.upper s ++ Str.upper t)%string.
Proof. induction s as [|c s IH]; simpl; [reflexivity | now rewrite IH]. Qed.

Lemma upper_rev (s : string) : Str.upper (Str.rev s) = Str.rev (Str.upper s).
Proof.
  induction s as [|c s IH]; [reflexivity|].
  simpl Str.upper at 2. now rewrite !rev_cons, upper_app, IH.
Qed.

Lemma upper_lstrip (s : string) :
  Str.upper (Str.lstrip s) = Str.lstrip (Str.upper s).
Proof.
  induction s as [|c s IH]; simpl; [reflexivity|].
  rewrite is_space_upper_char. now destruct (Str.is_space c).
Qed.

Lemma upper_strip (s : string) :
  Str.upper (Str.strip s) = Str.strip (Str.upper s).
Proof.
  unfold Str.strip.
  now rewrite upper_rev, upper_lstrip, upper_rev, upper_lstrip.
Qed.

End StrFacts.

Lemma method_is_padding (w1 w2 meth token : string) :
  all_space w1 = true -> all_space w2 = true ->
  method_is (w1 ++ meth ++ w2) token = method_is meth token.
Proof.
  intros H1 H2. unfold method_is. now rewrite StrFacts.strip_padding.
Qed.

Lemma method_is_case (m m' token : string) :
  Str.upper m' = Str.upper m -> method_is m' token = method_is m token.
Proof.
  intros H. unfold method_is. now rewrite !StrFacts.upper_strip, H.
Qed.

(** The call depends on the method token through the two tests only. *)
Lemma handle_loop_method (m m' action : string) (cols : list string)
  (s : hstate) :
  method_is m' "IQR" = method_is m "IQR" ->
  method_is m' "Z" = method_is m "Z" ->
  handle_loop m' action cols s = handle_loop m action cols s.
Proof.
  intros HI HZ. revert s. induction cols as [|c cols IH]; intros s; simpl.
  - reflexivity.
  - assert (Hc : handle_column m' action c s = handle_column m action c s).
    { unfold handle_column. now rewrite HI, HZ. }
    unfold seq. rewrite Hc.
    destruct (handle_column m action c s) as [s' [u|e]];
      [apply IH | reflexivity].
Qed.

(** X15.  The method token is read after trimming the whitespace
    around it and upper-casing its letters: a token padded with
    whitespace, or written in another letter case, makes
    [handle_outliers] do exactly what the plain token does. *)
Theorem method_token_is_trimmed_and_upper_cased
  (df : DataFrame) (columns : selector) (meth action : string) :
  (forall w1 w2 : string,
      all_space w1 = true -> all_space w2 = true ->
      handle_outliers df columns (w1 ++ meth ++ w2) action
      = handle_outliers df columns meth action)
  /\
  (forall m' : string,
      Str.upper m' = Str.upper meth ->
      handle_outliers df columns m' action
      = handle_outliers df columns meth action).
Proof.
  split.
  - intros w1 w2 H1 H2. unfold handle_outliers.
    apply handle_loop_method; now apply method_is_padding.
  - intros m' H. unfold handle_outliers.
    apply handle_loop_method; now apply method_is_case.
Qed.

Lemma method_token_is_trimmed_and_upper_cased_witness :
  handle_outliers df_scenario (Name "x") "  iqr " "remove"
  = handle_outliers df_scenario (Name "x") "IQR" "remove".
Proof.
  destruct (method_token_is_trimmed_and_upper_cased df_scenario (Name "x")
              "iqr" "remove") as [Hpad Hcase].
  exact (eq_trans (Hpad "  " " " eq_refl eq_refl)
                  (eq_sym (Hcase "IQR" eq_refl))).
Defined.

